(** * Widget identity, per-run registration and state coalescing

    A shallow embedding of [streamlit/runtime/state/widgets.py]:
    [_get_widget_id], [_build_duplicate_widget_message],
    [register_widget] and [coalesce_widget_states], together with the
    properties of the widget-identity and state-reconciliation engine.

    Conventions of the embedding.
    - A Python [str] that has a UTF-8 encoding is a Rocq [string]
      holding that encoding, so [s.encode("utf-8")] lists the bytes of
      the string. A [str] in general is its code points ([str] below):
      one with a lone surrogate in it has no UTF-8 encoding, and a user
      key may be such a string.
    - [bytes] is [list byte].
    - [Optional[X]] is [option X].
    - A Python [set] of strings is a [gset string].
    - A Python [dict] keeps insertion order, so it is an association
      list with unique keys ([Dict] below).
    - Mutation is explicit state passing; a raised exception is an
      outcome of the call, returned next to the state it leaves behind. *)

From Stdlib Require Import ZArith List Strings.String Strings.Ascii Strings.Byte Permutation.
From stdpp Require Import base decidable option list gmap strings.
Import ListNotations.

Local Open Scope Z_scope.

(** ** hashlib's MD5 (RFC 1321)

    [hashlib] is Python's own library. The digest is written out so
    that identities can be computed; no property below looks inside
    it. Words are 32-bit, kept in [Z] with the wrap-around explicit. *)
Module MD5.

Definition mask32 (x : Z) : Z := x mod 4294967296.

Definition rotl32 (x : Z) (c : Z) : Z :=
  mask32 (Z.lor (Z.shiftl x c) (Z.shiftr x (32 - c))).

Definition not32 (x : Z) : Z := Z.lxor x 4294967295.

Definition K : list Z :=
  [ 3614090360; 3905402710; 606105819; 3250441966;
    4118548399; 1200080426; 2821735955; 4249261313;
    1770035416; 2336552879; 4294925233; 2304563134;
    1804603682; 4254626195; 2792965006; 1236535329;
    4129170786; 3225465664; 643717713; 3921069994;
    3593408605; 38016083; 3634488961; 3889429448;
    568446438; 3275163606; 4107603335; 1163531501;
    2850285829; 4243563512; 1735328473; 2368359562;
    4294588738; 2272392833; 1839030562; 4259657740;
    2763975236; 1272893353; 4139469664; 3200236656;
    681279174; 3936430074; 3572445317; 76029189;
    3654602809; 3873151461; 530742520; 3299628645;
    4096336452; 1126891415; 2878612391; 4237533241;
    1700485571; 2399980690; 4293915773; 2240044497;
    1873313359; 4264355552; 2734768916; 1309151649;
    4149444226; 3174756917; 718787259; 3951481745 ].

Definition S : list Z :=
  [ 7; 12; 17; 22; 7; 12; 17; 22; 7; 12; 17; 22; 7; 12; 17; 22;
    5; 9; 14; 20; 5; 9; 14; 20; 5; 9; 14; 20; 5; 9; 14; 20;
    4; 11; 16; 23; 4; 11; 16; 23; 4; 11; 16; 23; 4; 11; 16; 23;
    6; 10; 15; 21; 6; 10; 15; 21; 6; 10; 15; 21; 6; 10; 15; 21 ].

Definition nthZ (l : list Z) (i : Z) : Z := nth (Z.to_nat i) l 0.

(** The chaining value [(A, B, C, D)]. *)
Definition state : Type := Z * Z * Z * Z.

Definition init : state := (1732584193, 4023233417, 2562383102, 271733878).

(** One of the 64 operations of a block, on the 16 words [M]. *)
Definition round (M : list Z) (st : state) (i : Z) : state :=
  let '(A, B, C, D) := st in
  let '(F, g) :=
    if i <? 16 then (Z.lor (Z.land B C) (Z.land (not32 B) D), i)
    else if i <? 32 then (Z.lor (Z.land D B) (Z.land (not32 D) C), (5 * i + 1) mod 16)
    else if i <? 48 then (Z.lxor (Z.lxor B C) D, (3 * i + 5) mod 16)
    else (Z.lxor C (Z.lor B (not32 D)), (7 * i) mod 16) in
  let F' := mask32 (F + A + nthZ K i + nthZ M g) in
  (D, mask32 (B + rotl32 F' (nthZ S i)), B, C).

Definition le_word (b0 b1 b2 b3 : Z) : Z :=
  b0 + 256 * b1 + 65536 * b2 + 16777216 * b3.

Fixpoint words (bs : list Z) : list Z :=
  match bs with
  | b0 :: b1 :: b2 :: b3 :: rest => le_word b0 b1 b2 b3 :: words rest
  | _ => []
  end.

Definition block (st : state) (bs : list Z) : state :=
  let M := words bs in
  let '(A, B, C, D) := st in
  let '(A', B', C', D') := fold_left (round M) (map Z.of_nat (seq 0 64)) st in
  (mask32 (A + A'), mask32 (B + B'), mask32 (C + C'), mask32 (D + D')).

Definition le_bytes (n : nat) (x : Z) : list Z :=
  map (fun k => (x / 2 ^ (8 * Z.of_nat k)) mod 256) (seq 0 n).

(** The message, the byte 0x80, zeros up to 56 modulo 64, then the
    bit length on 8 bytes, little-endian. *)
Definition pad (msg : list Z) : list Z :=
  let len := Z.of_nat (length msg) in
  let zeros := Z.to_nat ((55 - len) mod 64) in
  msg ++ [128] ++ repeat 0 zeros ++ le_bytes 8 ((8 * len) mod 2 ^ 64).

Fixpoint blocks (fuel : nat) (st : state) (bs : list Z) : state :=
  match fuel with
  | O => st
  | Datatypes.S fuel' =>
      match bs with
      | [] => st
      | _ => blocks fuel' (block st (firstn 64 bs)) (skipn 64 bs)
      end
  end.

Definition digest (msg : list byte) : list Z :=
  let bs := pad (map (fun b => Z.of_N (Byte.to_N b)) msg) in
  let '(A, B, C, D) := blocks (length bs) init bs in
  le_bytes 4 A ++ le_bytes 4 B ++ le_bytes 4 C ++ le_bytes 4 D.

Definition hex_digit (d : Z) : ascii :=
  ascii_of_nat (Z.to_nat (if d <? 10 then 48 + d else 87 + d)).

Fixpoint hex (bs : list Z) : string :=
  match bs with
  | [] => EmptyString
  | b :: rest => String (hex_digit (b / 16)) (String (hex_digit (b mod 16)) (hex rest))
  end.

Definition hexdigest (msg : list byte) : string := hex (digest msg).

End MD5.

(** ** Python values used by the module *)

(** [str(x)] for an [Optional[str]], as [str.format] and f-strings
    apply it: the absent value prints as the four letters [None]. *)
Definition str_of_optional (x : option string) : string :=
  match x with
  | Some s => s
  | None => "None"
  end.

(** [s.encode("utf-8")]. *)
Definition encode_utf8 (s : string) : list byte := list_byte_of_string s.

(** A [str] as Python holds it: its code points. *)
Definition str : Type := list N.

(** The UTF-8 bytes of one code point. A surrogate (U+D800 to U+DFFF)
    has none; neither has a number past U+10FFFF, which no [str]
    holds. *)
Definition utf8_of_code_point (c : N) : option string :=
  let byte n := String (ascii_of_N n) EmptyString in
  if (c <? 128)%N then Some (byte c)
  else if (c <? 2048)%N then
    Some (byte (192 + c / 64)%N ++ byte (128 + c mod 64)%N)%string
  else if (c <? 65536)%N then
    if ((55296 <=? c) && (c <=? 57343))%N then None
    else Some (byte (224 + c / 4096)%N ++ byte (128 + (c / 64) mod 64)%N
               ++ byte (128 + c mod 64)%N)%string
  else if (c <? 1114112)%N then
    Some (byte (240 + c / 262144)%N ++ byte (128 + (c / 4096) mod 64)%N
          ++ byte (128 + (c / 64) mod 64)%N ++ byte (128 + c mod 64)%N)%string
  else None.

(** The UTF-8 encoding of a [str], when it has one. *)
Fixpoint utf8_encoding (s : str) : option string :=
  match s with
  | [] => Some EmptyString
  | c :: s' =>
      match utf8_of_code_point c, utf8_encoding s' with
      | Some a, Some b => Some (a ++ b)%string
      | _, _ => None
      end
  end.

(** A user key, absent or with its encoding, when it has one. *)
Definition key_encoding (user_key : option str) : option (option string) :=
  match user_key with
  | None => Some None
  | Some key =>
      match utf8_encoding key with
      | Some encoded => Some (Some encoded)
      | None => None
      end
  end.

(** [hashlib.new("md5")] with [update] and [hexdigest]: the
    accumulator is the bytes fed so far. *)
Module hashlib.
Definition md5 : Type := list byte.
Definition new : md5 := [].
Definition update (h : md5) (data : list byte) : md5 := h ++ data.
Definition hexdigest (h : md5) : string := MD5.hexdigest h.
End hashlib.

(** An insertion-ordered [dict] with [str] keys. *)
Module Dict.
Section Dict.
Context {V : Type}.

Definition t : Type := list (string * V).

(** [d.get(k)] *)
Fixpoint get (d : t) (k : string) : option V :=
  match d with
  | [] => None
  | (k', v) :: d' => if decide (k' = k) then Some v else get d' k
  end.

(** [d[k] = v]: a key already present keeps its place, a new key goes
    last. *)
Fixpoint set (d : t) (k : string) (v : V) : t :=
  match d with
  | [] => [(k, v)]
  | (k', v') :: d' =>
      if decide (k' = k) then (k', v) :: d' else (k', v') :: set d' k v
  end.

(** [d.keys()] and [d.values()] *)
Definition keys (d : t) : list string := map fst d.
Definition values (d : t) : list V := map snd d.

End Dict.
Arguments t : clear implicits.
End Dict.

(** ** Exceptions and outcomes *)

(** [ValueError] is what the protobuf runtime raises when a string
    field is assigned a [str] with no UTF-8 encoding; its message is
    the runtime's own. *)
Inductive exn : Type :=
  | DuplicateWidgetID (message : string)
  | KeyError (key : string)
  | ValueError.

Inductive outcome (A : Type) : Type :=
  | Return (a : A)
  | Raise (e : exn).
Arguments Return {A} a.
Arguments Raise {A} e.

(** ** Widget states on the wire *)

(** Modelled from the spec: the [WidgetState] and [WidgetStates]
    messages ([WidgetStates_pb2] is not among the sources). A state is
    an identity and a tagged union occupying at most one value slot;
    the slot names are those of [ValueFieldName]. Payloads other than
    the two booleans are never inspected: a double is its binary64 bit
    pattern, and a sub-message is its encoding. *)
Inductive value_oneof : Type :=
  | value_not_set
  | trigger_value (b : bool)
  | bool_value (b : bool)
  | double_value (bits : Z)
  | int_value (n : Z)
  | string_value (s : string)
  | double_array_value (data : list Z)
  | int_array_value (data : list Z)
  | string_array_value (data : list string)
  | json_value (s : string)
  | arrow_value (encoded : list byte)
  | bytes_value (data : list byte)
  | file_uploader_state_value (encoded : list byte).

Module WidgetState.
Record t : Type := mk { id : string; value : value_oneof }.

(** [wstate.WhichOneof("value")] *)
Definition WhichOneof (w : t) : option string :=
  match value w with
  | value_not_set => None
  | trigger_value _ => Some "trigger_value"
  | bool_value _ => Some "bool_value"
  | double_value _ => Some "double_value"
  | int_value _ => Some "int_value"
  | string_value _ => Some "string_value"
  | double_array_value _ => Some "double_array_value"
  | int_array_value _ => Some "int_array_value"
  | string_array_value _ => Some "string_array_value"
  | json_value _ => Some "json_value"
  | arrow_value _ => Some "arrow_value"
  | bytes_value _ => Some "bytes_value"
  | file_uploader_state_value _ => Some "file_uploader_state_value"
  end.

(** [wstate.trigger_value]: the field's default when another slot is
    the active one. *)
Definition get_trigger_value (w : t) : bool :=
  match value w with
  | trigger_value b => b
  | _ => false
  end.
End WidgetState.

Module WidgetStates.
Record t : Type := mk { widgets : list WidgetState.t }.
End WidgetStates.

(** ** The static table *)

Definition ELEMENT_TYPE_TO_VALUE_TYPE_items : list (string * string) :=
  [ ("button", "trigger_value");
    ("download_button", "trigger_value");
    ("checkbox", "bool_value");
    ("camera_input", "file_uploader_state_value");
    ("color_picker", "string_value");
    ("date_input", "string_array_value");
    ("file_uploader", "file_uploader_state_value");
    ("multiselect", "int_array_value");
    ("number_input", "double_value");
    ("radio", "int_value");
    ("selectbox", "int_value");
    ("slider", "double_array_value");
    ("text_area", "string_value");
    ("text_input", "string_value");
    ("time_input", "string_value");
    ("component_instance", "json_value") ]%string.

Definition ELEMENT_TYPE_TO_VALUE_TYPE : gmap string string :=
  list_to_map ELEMENT_TYPE_TO_VALUE_TYPE_items.

(** ** [coalesce_widget_states] *)

(** [{wstate.id: wstate for wstate in new_states.widgets}] *)
Definition states_by_id_of (ws : list WidgetState.t) : Dict.t WidgetState.t :=
  fold_left (fun d wstate => Dict.set d (WidgetState.id wstate) wstate) ws [].

(** The body of the loop over [old_states.widgets]. A message is
    always truthy, so [new_trigger_val and ...] only asks that the
    lookup found one. *)
Definition coalesce_step (states_by_id : Dict.t WidgetState.t)
    (old_state : WidgetState.t) : Dict.t WidgetState.t :=
  if bool_decide (WidgetState.WhichOneof old_state = Some "trigger_value"%string)
     && WidgetState.get_trigger_value old_state
  then
    match Dict.get states_by_id (WidgetState.id old_state) with
    | Some new_trigger_val =>
        if bool_decide (WidgetState.WhichOneof new_trigger_val = Some "trigger_value"%string)
        then Dict.set states_by_id (WidgetState.id old_state) old_state
        else states_by_id
    | None => states_by_id
    end
  else states_by_id.

Definition coalesce_widget_states (old_states new_states : WidgetStates.t)
  : WidgetStates.t :=
  let states_by_id := states_by_id_of (WidgetStates.widgets new_states) in
  let states_by_id :=
    fold_left coalesce_step (WidgetStates.widgets old_states) states_by_id in
  WidgetStates.mk (Dict.values states_by_id).

(** ** [_build_duplicate_widget_message] *)

Definition nl : string := String "010"%char EmptyString.

(** The two templates after [textwrap.dedent] and [strip], with the
    fields of [format] filled in. *)
Definition _build_duplicate_widget_message (widget_func_name : string)
    (user_key : option string) : string :=
  match user_key with
  | Some _ =>
      "There are multiple identical `st." ++ widget_func_name ++ "` widgets with" ++ nl ++
      "`key='" ++ str_of_optional user_key ++ "'`." ++ nl ++
      nl ++
      "To fix this, please make sure that the `key` argument is unique for" ++ nl ++
      "each `st." ++ widget_func_name ++ "` you create."
  | None =>
      "There are multiple identical `st." ++ widget_func_name ++ "` widgets with the" ++ nl ++
      "same generated key." ++ nl ++
      nl ++
      "When a widget is created, it's assigned an internal key based on" ++ nl ++
      "its structure. Multiple widgets with an identical structure will" ++ nl ++
      "result in the same internal key, which causes this error." ++ nl ++
      nl ++
      "To fix this error, please pass a unique `key` argument to" ++ nl ++
      "`st." ++ widget_func_name ++ "`."
  end%string.

(** ** Widget descriptors *)

(** A widget's message as this module sees it: the [id] field, which
    [register_widget] assigns, and the other fields, which it never
    reads. *)
Module WidgetProto.
Record t : Type := mk { id : string; fields : list byte }.
Definition set_id (element_proto : t) (widget_id : string) : t :=
  mk widget_id (fields element_proto).
End WidgetProto.

(** Modelled from the spec: [RegisterWidgetResult] and its [failure]
    constructor ([session_state.py] is not among the sources): a
    failure result carries only the deserializer's notion of a
    default value, which is what the deserializer returns when no
    client value is present. *)
Module RegisterWidgetResult.
Record t (T : Type) : Type := mk { value : T; value_changed : bool }.
Arguments mk {T} value value_changed.
Arguments value {T} _.
Arguments value_changed {T} _.
Definition failure {T UiValue : Type}
    (deserializer : option UiValue -> string -> T) : t T :=
  mk (deserializer None ""%string) false.
End RegisterWidgetResult.

Section Registrar.

(** The collaborators [widgets.py] imports. *)
Variable T : Type.                (* what the widget function returns *)
Variable UiValue : Type.          (* a value as the client reports it *)
Variable WidgetCallback : Type.
Variable WidgetArgs : Type.
Variable WidgetKwargs : Type.
Variable SessionState : Type.
Variable GENERATED_WIDGET_KEY_PREFIX : string.
(** [element_proto.SerializeToString()] *)
Variable SerializeToString : WidgetProto.t -> list byte.

Definition WidgetDeserializer : Type := option UiValue -> string -> T.
Definition WidgetSerializer : Type := T -> UiValue.

Record WidgetMetadata : Type := mkWidgetMetadata {
  id : string;
  deserializer : WidgetDeserializer;
  serializer : WidgetSerializer;
  value_type : string;
  callback : option WidgetCallback;
  callback_args : option WidgetArgs;
  callback_kwargs : option WidgetKwargs
}.

(** [session_state.register_widget(metadata, user_key)] *)
Variable SessionState_register_widget :
  SessionState -> WidgetMetadata -> option string ->
  RegisterWidgetResult.t T * SessionState.

Record ScriptRunContext : Type := mkScriptRunContext {
  widget_ids_this_run : gset string;
  widget_user_keys_this_run : gset string;
  session_state : SessionState
}.

(** *** [_get_widget_id] *)

Definition _get_widget_id (element_type : string)
    (element_proto : WidgetProto.t) (user_key : option string) : string :=
  let h := hashlib.new in
  let h := hashlib.update h (encode_utf8 element_type) in
  let h := hashlib.update h (SerializeToString element_proto) in
  (GENERATED_WIDGET_KEY_PREFIX ++ "-" ++ hashlib.hexdigest h ++ "-"
     ++ str_of_optional user_key)%string.

(** *** Code that runs against a live context

    A computation reads and updates the [ScriptRunContext] and either
    returns or raises; the context it leaves is returned in both
    cases. *)
Definition M (A : Type) : Type := ScriptRunContext -> outcome A * ScriptRunContext.

Definition ret {A : Type} (a : A) : M A := fun ctx => (Return a, ctx).

Definition raise {A : Type} (e : exn) : M A := fun ctx => (Raise e, ctx).

Definition bind {A B : Type} (m : M A) (k : A -> M B) : M B :=
  fun ctx =>
    match m ctx with
    | (Return a, ctx') => k a ctx'
    | (Raise e, ctx') => (Raise e, ctx')
    end.

Notation "'let*' x := m 'in' k" := (bind m (fun x => k))
  (at level 10, x name, m at level 200, k at level 200,
   format "'[v' 'let*'  x  :=  m  'in' '/' k ']'").

Definition gets {A : Type} (f : ScriptRunContext -> A) : M A :=
  fun ctx => (Return (f ctx), ctx).

(** [ctx.widget_user_keys_this_run.add(user_key)] *)
Definition add_user_key (user_key : string) : M unit :=
  fun ctx =>
    (Return tt,
     mkScriptRunContext (widget_ids_this_run ctx)
       (widget_user_keys_this_run ctx ∪ {[user_key]}) (session_state ctx)).

(** [ctx.widget_ids_this_run.add(widget_id)] *)
Definition add_widget_id (widget_id : string) : M unit :=
  fun ctx =>
    (Return tt,
     mkScriptRunContext (widget_ids_this_run ctx ∪ {[widget_id]})
       (widget_user_keys_this_run ctx) (session_state ctx)).

(** [ELEMENT_TYPE_TO_VALUE_TYPE[element_type]] *)
Definition value_type_of (element_type : string) : M string :=
  match ELEMENT_TYPE_TO_VALUE_TYPE !! element_type with
  | Some value_type => ret value_type
  | None => raise (KeyError element_type)
  end.

(** [ctx.session_state.register_widget(metadata, user_key)] *)
Definition session_state_register_widget (metadata : WidgetMetadata)
    (user_key : option string) : M (RegisterWidgetResult.t T) :=
  fun ctx =>
    let '(result, session_state') :=
      SessionState_register_widget (session_state ctx) metadata user_key in
    (Return result,
     mkScriptRunContext (widget_ids_this_run ctx)
       (widget_user_keys_this_run ctx) session_state').

(** The name a duplicate is reported under. *)
Definition reported_name (widget_func_name : option string)
    (element_type : string) : string :=
  match widget_func_name with
  | Some name => name
  | None => element_type
  end.

(** [register_widget] from the first use of [ctx] on. *)
Definition register_in_context (element_type : string) (widget_id : string)
    (deserializer : WidgetDeserializer) (serializer : WidgetSerializer)
    (user_key : option string) (widget_func_name : option string)
    (on_change_handler : option WidgetCallback)
    (args : option WidgetArgs) (kwargs : option WidgetKwargs)
  : M (RegisterWidgetResult.t T) :=
  (* Ensure another widget with the same user key hasn't already been
     registered. *)
  let* _ :=
    match user_key with
    | Some key =>
        let* claimed := gets widget_user_keys_this_run in
        if bool_decide (key ∉ claimed) then add_user_key key
        else raise (DuplicateWidgetID
               (_build_duplicate_widget_message
                  (reported_name widget_func_name element_type) user_key))
    | None => ret tt
    end in
  (* Ensure another widget with the same id hasn't already been
     registered. *)
  let* claimed := gets widget_ids_this_run in
  let new_widget := bool_decide (widget_id ∉ claimed) in
  let* _ :=
    if new_widget then add_widget_id widget_id
    else raise (DuplicateWidgetID
           (_build_duplicate_widget_message
              (reported_name widget_func_name element_type) user_key)) in
  (* Create the widget's updated metadata, and register it with
     session_state. *)
  let* value_type := value_type_of element_type in
  let metadata :=
    mkWidgetMetadata widget_id deserializer serializer value_type
      on_change_handler args kwargs in
  session_state_register_widget metadata user_key.

(** *** [register_widget]

    The call is given the descriptor and the context it may mutate and
    hands both back next to its outcome. The user key here is a
    [string]: a key that has a UTF-8 encoding, for which the assignment
    to [element_proto.id] goes through. [widgets.register_widget]
    below is the call for any key. *)
Definition register_widget (element_type : string)
    (element_proto : WidgetProto.t)
    (deserializer : WidgetDeserializer) (serializer : WidgetSerializer)
    (ctx : option ScriptRunContext)
    (user_key : option string) (widget_func_name : option string)
    (on_change_handler : option WidgetCallback)
    (args : option WidgetArgs) (kwargs : option WidgetKwargs)
  : outcome (RegisterWidgetResult.t T) * WidgetProto.t * option ScriptRunContext :=
  let widget_id := _get_widget_id element_type element_proto user_key in
  let element_proto := WidgetProto.set_id element_proto widget_id in
  match ctx with
  | None =>
      (* Early-out if we don't have a script run context. *)
      (Return (RegisterWidgetResult.failure deserializer), element_proto, None)
  | Some ctx =>
      let '(result, ctx') :=
        register_in_context element_type widget_id deserializer serializer
          user_key widget_func_name on_change_handler args kwargs ctx in
      (result, element_proto, Some ctx')
  end.

End Registrar.

Arguments mkWidgetMetadata {T UiValue WidgetCallback WidgetArgs WidgetKwargs}.
Arguments id {T UiValue WidgetCallback WidgetArgs WidgetKwargs} _.
Arguments deserializer {T UiValue WidgetCallback WidgetArgs WidgetKwargs} _.
Arguments serializer {T UiValue WidgetCallback WidgetArgs WidgetKwargs} _.
Arguments value_type {T UiValue WidgetCallback WidgetArgs WidgetKwargs} _.
Arguments callback {T UiValue WidgetCallback WidgetArgs WidgetKwargs} _.
Arguments callback_args {T UiValue WidgetCallback WidgetArgs WidgetKwargs} _.
Arguments callback_kwargs {T UiValue WidgetCallback WidgetArgs WidgetKwargs} _.
Arguments mkScriptRunContext {SessionState}.
Arguments widget_ids_this_run {SessionState} _.
Arguments widget_user_keys_this_run {SessionState} _.
Arguments session_state {SessionState} _.

(** *** [register_widget], whatever the user key

    The derived identity ends in the user key, so it has a UTF-8
    encoding exactly when the key has one (the prefix and the digest
    are ASCII). When it has none, [element_proto.id = widget_id]
    raises [ValueError]: the descriptor keeps the [id] it had and the
    context is not looked at. Otherwise the call goes on as
    [register_widget] above has it. *)
Module widgets.
Definition register_widget {T UiValue WidgetCallback WidgetArgs WidgetKwargs SessionState : Type}
    (GENERATED_WIDGET_KEY_PREFIX : string)
    (SerializeToString : WidgetProto.t -> list byte)
    (SessionState_register_widget :
       SessionState -> WidgetMetadata T UiValue WidgetCallback WidgetArgs WidgetKwargs ->
       option string -> RegisterWidgetResult.t T * SessionState)
    (element_type : string) (element_proto : WidgetProto.t)
    (deserializer : WidgetDeserializer T UiValue)
    (serializer : WidgetSerializer T UiValue)
    (ctx : option (ScriptRunContext SessionState))
    (user_key : option str) (widget_func_name : option string)
    (on_change_handler : option WidgetCallback)
    (args : option WidgetArgs) (kwargs : option WidgetKwargs)
  : outcome (RegisterWidgetResult.t T) * WidgetProto.t
    * option (ScriptRunContext SessionState) :=
  match key_encoding user_key with
  | Some encoded_key =>
      register_widget T UiValue WidgetCallback WidgetArgs WidgetKwargs SessionState
        GENERATED_WIDGET_KEY_PREFIX SerializeToString SessionState_register_widget
        element_type element_proto deserializer serializer ctx
        encoded_key widget_func_name on_change_handler args kwargs
  | None => (Raise ValueError, element_proto, ctx)
  end.
End widgets.

(** ** Reading a snapshot *)

(** The entry a snapshot holds for an identity; were an identity to
    occur twice, the later entry is the one it holds. *)
Fixpoint entry_of (ws : list WidgetState.t) (i : string) : option WidgetState.t :=
  match ws with
  | [] => None
  | w :: ws' =>
      match entry_of ws' i with
      | Some w' => Some w'
      | None => if decide (WidgetState.id w = i) then Some w else None
      end
  end.

(** The snapshot's identities, in order. *)
Definition identities (ws : list WidgetState.t) : list string :=
  map WidgetState.id ws.

(** The entry occupies the trigger slot. *)
Definition in_trigger_slot (w : WidgetState.t) : bool :=
  bool_decide (WidgetState.WhichOneof w = Some "trigger_value"%string).

(** The entry is a trigger that fired. *)
Definition fired (w : WidgetState.t) : bool :=
  in_trigger_slot w && WidgetState.get_trigger_value w.

(** Some entry of the snapshot is a fired trigger of that identity. *)
Definition fired_in (ws : list WidgetState.t) (i : string) : bool :=
  existsb (fun w => fired w && bool_decide (WidgetState.id w = i)) ws.

(** Every entry of the dictionary sits under its own identity. *)
Definition well_keyed (d : Dict.t WidgetState.t) : Prop :=
  Forall (fun kw => WidgetState.id kw.2 = kw.1) d.

(** The fired trigger of an identity: the one value the coalescer
    ever carries over from the old snapshot. *)
Definition fired_trigger (i : string) : WidgetState.t :=
  WidgetState.mk i (trigger_value true).

(** The invariant of section 4.3 read as it is worded: a fired
    trigger in the coalesced snapshot was already held, fired, by the
    old snapshot. *)
Definition fired_only_from_old : Prop :=
  ∀ (old_states new_states : WidgetStates.t) (i : string) (w : WidgetState.t),
    entry_of (WidgetStates.widgets (coalesce_widget_states old_states new_states)) i = Some w →
    fired w = true →
    In w (WidgetStates.widgets old_states).

(** What the loop makes of one entry of the new snapshot: a trigger
    whose identity the old snapshot holds fired becomes the fired
    trigger, and any other entry stays as it is. *)
Definition reassert (old : list WidgetState.t) (w : WidgetState.t) : WidgetState.t :=
  if in_trigger_slot w && fired_in old (WidgetState.id w)
  then fired_trigger (WidgetState.id w)
  else w.

(** ** Reading the outcome of a registration *)

(** The call raised [DuplicateWidgetID], whatever the message. *)
Definition raises_DuplicateWidgetID {A : Type} (result : outcome A) : Prop :=
  ∃ message, result = Raise (DuplicateWidgetID message).

(** A user key is supplied and this run has claimed it already. *)
Definition key_already_claimed (user_key : option string) (claimed : gset string) : bool :=
  match user_key with
  | Some key => bool_decide (key ∈ claimed)
  | None => false
  end.

(** The claimed keys once the supplied key, if any, is among them. *)
Definition with_user_key (user_key : option string) (claimed : gset string) : gset string :=
  match user_key with
  | Some key => claimed ∪ {[key]}
  | None => claimed
  end.

(** The claim sets as calls of [register_widget] leave them: every
    claimed identity is the prefix, a digest of 32 characters and a
    key, absent or claimed. *)
Definition claims_consistent (prefix : string) (ids keys : gset string) : Prop :=
  ∀ i, i ∈ ids →
    ∃ (digest : string) (user_key : option string),
      String.length digest = 32%nat
      ∧ i = (prefix ++ "-" ++ digest ++ "-" ++ str_of_optional user_key)%string
      ∧ ∀ key, user_key = Some key → key ∈ keys.

(** ** A concrete world to run the model in

    One instance of the collaborators: the prefix of
    [session_state.py], messages whose [id] is field 1, a button's
    codec, and a session store that logs what it is handed. *)
Module Sample.

Definition PREFIX : string := "$$GENERATED_WIDGET_KEY".

Definition byte_of (n : N) : byte :=
  match Byte.of_N n with
  | Some b => b
  | None => x00
  end.

(** A length as a base-128 varint. *)
Fixpoint varint (fuel : nat) (n : N) : list byte :=
  match fuel with
  | O => []
  | S fuel' =>
      if (n <? 128)%N then [byte_of n]
      else byte_of (n mod 128 + 128) :: varint fuel' (n / 128)
  end.

(** Field 1 (a string, left out when empty), then the other fields. *)
Definition SerializeToString (element_proto : WidgetProto.t) : list byte :=
  let i := encode_utf8 (WidgetProto.id element_proto) in
  match i with
  | [] => []
  | _ => x0a :: varint 10 (N.of_nat (length i)) ++ i
  end ++ WidgetProto.fields element_proto.

(** [st.button]: pressed or not. *)
Definition button_deserializer (ui_value : option bool) (widget_id : string) : bool :=
  match ui_value with
  | Some b => b
  | None => false
  end.

Definition button_serializer (v : bool) : bool := v.

Definition Store : Type := list (string * string).

Definition store_register (st : Store)
    (metadata : WidgetMetadata bool bool unit unit unit)
    (user_key : option string) : RegisterWidgetResult.t bool * Store :=
  (RegisterWidgetResult.mk (deserializer metadata None (id metadata)) false,
   st ++ [(id metadata, value_type metadata)]).

Definition get_widget_id : string -> WidgetProto.t -> option string -> string :=
  _get_widget_id PREFIX SerializeToString.

Definition register (element_type : string) (element_proto : WidgetProto.t)
    (ctx : option (ScriptRunContext Store)) (user_key : option string) :=
  register_widget bool bool unit unit unit Store PREFIX SerializeToString
    store_register element_type element_proto
    button_deserializer button_serializer ctx user_key None None None None.

(** The same call, whatever the user key. *)
Definition call (element_type : string) (element_proto : WidgetProto.t)
    (ctx : option (ScriptRunContext Store)) (user_key : option str) :=
  widgets.register_widget PREFIX SerializeToString store_register
    element_type element_proto button_deserializer button_serializer
    ctx user_key None None None None.

(** A button labelled OK (field 2), not yet given an identity. *)
Definition ok_button : WidgetProto.t :=
  WidgetProto.mk "" [x12; x02; x4f; x4b].

(** The key [go], and a key that is one lone surrogate, U+D800. *)
Definition go : str := [103; 111]%N.
Definition lone_surrogate : str := [55296]%N.

Definition fresh_run : ScriptRunContext Store := mkScriptRunContext ∅ ∅ [].

(** The run once the OK button has been declared under the key [go]. *)
Definition go_run : ScriptRunContext Store :=
  let widget_id := get_widget_id "button" ok_button (Some "go"%string) in
  mkScriptRunContext {[widget_id]} {["go"%string]} [(widget_id, "trigger_value"%string)].

End Sample.

(** * Properties *)

(** ** The dictionary *)

Section DictFacts.
Context {V : Type}.
Implicit Types (d : Dict.t V) (k : string) (v : V).

Lemma dict_get_set_eq d k v : Dict.get (Dict.set d k v) k = Some v.
Proof.
  induction d as [|[k' v'] d IH]; simpl.
  - by rewrite decide_True.
  - destruct (decide (k' = k)) as [->|Hne]; simpl.
    + by rewrite decide_True.
    + by rewrite decide_False.
Qed.

Lemma dict_get_set_ne d k k' v :
  k ≠ k' → Dict.get (Dict.set d k v) k' = Dict.get d k'.
Proof.
  intros Hne. induction d as [|[k0 v0] d IH]; simpl.
  - by rewrite decide_False.
  - destruct (decide (k0 = k)) as [->|Hk0]; simpl.
    + by rewrite !decide_False.
    + destruct (decide (k0 = k')); [done | apply IH].
Qed.

Lemma dict_get_None d k : Dict.get d k = None ↔ k ∉ Dict.keys d.
Proof.
  induction d as [|[k' v'] d IH]; simpl.
  - split; [intros _; apply not_elem_of_nil | done].
  - rewrite not_elem_of_cons. destruct (decide (k' = k)) as [->|Hne].
    + split; [done | intros [? _]; done].
    + rewrite IH. split; [intros ?; split; [congruence | done] | intros [_ ?]; done].
Qed.

Lemma dict_keys_set_present d k v :
  is_Some (Dict.get d k) → Dict.keys (Dict.set d k v) = Dict.keys d.
Proof.
  induction d as [|[k' v'] d IH]; simpl.
  - intros [? ?]; done.
  - destruct (decide (k' = k)) as [->|Hne]; simpl; [done|].
    intros H. by rewrite IH.
Qed.

Lemma dict_set_absent d k v :
  k ∉ Dict.keys d → Dict.set d k v = d ++ [(k, v)].
Proof.
  induction d as [|[k' v'] d IH]; simpl; [done|].
  rewrite not_elem_of_cons. intros [Hne Hnin].
  rewrite decide_False by congruence. by rewrite IH.
Qed.

End DictFacts.

Lemma well_keyed_set d w :
  well_keyed d → well_keyed (Dict.set d (WidgetState.id w) w).
Proof.
  unfold well_keyed. induction d as [|[k' v'] d IH]; simpl; intros Hd.
  - by constructor.
  - inversion Hd as [|? ? Hhd Htl]; subst.
    destruct (decide (k' = WidgetState.id w)) as [->|Hne]; constructor; auto.
Qed.

Lemma entry_of_values d i :
  NoDup (Dict.keys d) → well_keyed d →
  entry_of (Dict.values d) i = Dict.get d i.
Proof.
  unfold well_keyed. induction d as [|[k w] d IH]; simpl; [done|].
  intros Hnd Hwk. apply NoDup_cons in Hnd as [Hk Hnd].
  inversion Hwk as [|? ? Hhd Htl]; subst. simpl in Hhd.
  rewrite IH by done. rewrite Hhd.
  destruct (decide (k = i)) as [->|Hne].
  - apply dict_get_None in Hk. by rewrite Hk.
  - by destruct (Dict.get d i).
Qed.

(** ** The coalescer *)

Lemma entry_of_In ws i w : entry_of ws i = Some w → In w ws ∧ WidgetState.id w = i.
Proof.
  induction ws as [|w0 ws IH]; simpl; [done|].
  destruct (entry_of ws i) as [w'|].
  - intros [= ->]. destruct IH as [? ?]; auto.
  - destruct (decide (WidgetState.id w0 = i)); [|done].
    intros [= ->]. auto.
Qed.

Lemma entry_of_None ws i : entry_of ws i = None ↔ i ∉ identities ws.
Proof.
  induction ws as [|w0 ws IH]; simpl.
  - split; [intros _; apply not_elem_of_nil | done].
  - rewrite not_elem_of_cons. destruct (entry_of ws i) as [w'|].
    + split; [done|]. intros [_ Hn]. apply IH in Hn. done.
    + destruct (decide (WidgetState.id w0 = i)) as [<-|Hne].
      * split; [done | intros [? _]; done].
      * split; [intros _; split; [congruence | by apply IH] | done].
Qed.

(** With unique identities, the entry held for an identity is the one
    entry of the list under it. *)
Lemma entry_of_unique ws w :
  NoDup (identities ws) → In w ws → entry_of ws (WidgetState.id w) = Some w.
Proof.
  induction ws as [|w0 ws IH]; simpl; [done|].
  intros Hnd Hin. apply NoDup_cons in Hnd as [Hw0 Hnd].
  destruct Hin as [->|Hin].
  - apply entry_of_None in Hw0. rewrite Hw0. by rewrite decide_True.
  - by rewrite IH.
Qed.

Lemma states_by_id_get ws d i :
  Dict.get (fold_left (fun d wstate => Dict.set d (WidgetState.id wstate) wstate) ws d) i
  = match entry_of ws i with
    | Some w => Some w
    | None => Dict.get d i
    end.
Proof.
  revert d. induction ws as [|w ws IH]; intros d; simpl; [done|].
  rewrite IH. destruct (entry_of ws i); [done|].
  destruct (decide (WidgetState.id w = i)) as [<-|Hne].
  - apply dict_get_set_eq.
  - by apply dict_get_set_ne.
Qed.

Lemma states_by_id_of_get ws i :
  Dict.get (states_by_id_of ws) i = entry_of ws i.
Proof.
  unfold states_by_id_of. rewrite states_by_id_get. by destruct (entry_of ws i).
Qed.

Lemma states_by_id_inv ws d :
  NoDup (Dict.keys d) → well_keyed d →
  let d' := fold_left (fun d wstate => Dict.set d (WidgetState.id wstate) wstate) ws d in
  NoDup (Dict.keys d') ∧ well_keyed d'.
Proof.
  revert d. induction ws as [|w ws IH]; intros d Hnd Hwk; simpl; [done|].
  apply IH.
  - destruct (Dict.get d (WidgetState.id w)) eqn:Hg.
    + rewrite dict_keys_set_present by eauto. done.
    + apply dict_get_None in Hg. rewrite dict_set_absent by done.
      unfold Dict.keys. rewrite map_app. simpl.
      apply NoDup_app. split; [done|]. split; [|apply NoDup_singleton].
      intros k Hk Hk'. apply list_elem_of_singleton in Hk'. by subst.
  - by apply well_keyed_set.
Qed.

Lemma fired_is_fired_trigger w : fired w = true → w = fired_trigger (WidgetState.id w).
Proof.
  destruct w as [i v]. unfold fired, in_trigger_slot, fired_trigger. simpl.
  destruct v as [|[]| | | | | | | | | | |]; simpl; intros H; try done;
    rewrite ?andb_false_r in H; done.
Qed.

Lemma fired_in_spec ws i : fired_in ws i = true ↔ In (fired_trigger i) ws.
Proof.
  unfold fired_in. rewrite existsb_exists. split.
  - intros (w & Hin & Hw). apply andb_true_iff in Hw as [Hf Hi].
    apply bool_decide_eq_true in Hi. apply fired_is_fired_trigger in Hf.
    rewrite Hi in Hf. by subst.
  - intros Hin. exists (fired_trigger i). split; [done|].
    unfold fired, in_trigger_slot. simpl. by rewrite !bool_decide_eq_true_2.
Qed.

(** One turn of the loop, seen from one identity. *)
Lemma coalesce_step_get d old_state i :
  Dict.get (coalesce_step d old_state) i
  = match Dict.get d i with
    | None => None
    | Some w =>
        if in_trigger_slot w && (fired old_state && bool_decide (WidgetState.id old_state = i))
        then Some (fired_trigger i)
        else Some w
    end.
Proof.
  unfold coalesce_step. fold (in_trigger_slot old_state). fold (fired old_state).
  destruct (fired old_state) eqn:Hf; simpl.
  2:{ destruct (Dict.get d i); [|done]. by rewrite andb_false_r. }
  apply fired_is_fired_trigger in Hf.
  destruct (decide (WidgetState.id old_state = i)) as [Hi|Hi].
  - rewrite bool_decide_eq_true_2 by done. rewrite Hi.
    destruct (Dict.get d i) as [w|] eqn:Hg; [|done].
    fold (in_trigger_slot w). rewrite andb_true_r.
    destruct (in_trigger_slot w); [|by rewrite Hg].
    rewrite dict_get_set_eq. by rewrite Hf, Hi.
  - rewrite bool_decide_eq_false_2 by done.
    destruct (Dict.get d (WidgetState.id old_state)) as [w|] eqn:Hg.
    + fold (in_trigger_slot w). destruct (in_trigger_slot w).
      * rewrite dict_get_set_ne by done. destruct (Dict.get d i); [|done].
        by rewrite andb_false_r.
      * destruct (Dict.get d i); [|done]. by rewrite andb_false_r.
    + destruct (Dict.get d i); [|done]. by rewrite andb_false_r.
Qed.

(** The whole loop, seen from one identity. *)
Lemma coalesce_loop_get old d i :
  Dict.get (fold_left coalesce_step old d) i
  = match Dict.get d i with
    | None => None
    | Some w =>
        if in_trigger_slot w && fired_in old i then Some (fired_trigger i) else Some w
    end.
Proof.
  revert d. induction old as [|o old IH]; intros d; simpl.
  - destruct (Dict.get d i); [|done]. by rewrite andb_false_r.
  - rewrite IH, coalesce_step_get. destruct (Dict.get d i) as [w|]; [|done].
    destruct (in_trigger_slot w) eqn:Hw; simpl.
    + destruct (fired o && bool_decide (WidgetState.id o = i)); simpl.
      * by destruct (fired_in old i).
      * by rewrite Hw.
    + by rewrite Hw.
Qed.

Lemma coalesce_step_inv d old_state :
  NoDup (Dict.keys d) → well_keyed d →
  Dict.keys (coalesce_step d old_state) = Dict.keys d
  ∧ well_keyed (coalesce_step d old_state).
Proof.
  intros Hnd Hwk. unfold coalesce_step.
  destruct (_ && _); [|done].
  destruct (Dict.get d (WidgetState.id old_state)) as [w|] eqn:Hg; [|done].
  destruct (bool_decide _); [|done]. split.
  - apply dict_keys_set_present. eauto.
  - by apply well_keyed_set.
Qed.

Lemma coalesce_loop_inv old d :
  NoDup (Dict.keys d) → well_keyed d →
  Dict.keys (fold_left coalesce_step old d) = Dict.keys d
  ∧ well_keyed (fold_left coalesce_step old d).
Proof.
  revert d. induction old as [|o old IH]; intros d Hnd Hwk; simpl; [done|].
  destruct (coalesce_step_inv d o Hnd Hwk) as [Hk Hw].
  destruct (IH (coalesce_step d o)) as [Hk' Hw']; [by rewrite Hk | done |].
  split; [by rewrite Hk', Hk | done].
Qed.

(** The coalesced snapshot, identity by identity: what the new
    snapshot holds, except that a trigger of the new snapshot becomes
    the fired trigger when the old snapshot has that identity fired. *)
Lemma coalesce_entry_of old_states new_states i :
  entry_of (WidgetStates.widgets (coalesce_widget_states old_states new_states)) i
  = match entry_of (WidgetStates.widgets new_states) i with
    | None => None
    | Some w =>
        if in_trigger_slot w && fired_in (WidgetStates.widgets old_states) i
        then Some (fired_trigger i)
        else Some w
    end.
Proof.
  unfold coalesce_widget_states. simpl.
  destruct (states_by_id_inv (WidgetStates.widgets new_states) [])
    as [Hnd Hwk]; [constructor | constructor |].
  fold (states_by_id_of (WidgetStates.widgets new_states)) in Hnd, Hwk.
  destruct (coalesce_loop_inv (WidgetStates.widgets old_states) _ Hnd Hwk) as [Hk Hw].
  rewrite entry_of_values; [| by rewrite Hk | done].
  rewrite coalesce_loop_get. by rewrite states_by_id_of_get.
Qed.

(** The coalesced snapshot has unique identities. *)
Lemma coalesce_identities_NoDup old_states new_states :
  NoDup (identities (WidgetStates.widgets (coalesce_widget_states old_states new_states))).
Proof.
  unfold coalesce_widget_states. simpl.
  destruct (states_by_id_inv (WidgetStates.widgets new_states) [])
    as [Hnd Hwk]; [constructor | constructor |].
  fold (states_by_id_of (WidgetStates.widgets new_states)) in Hnd, Hwk.
  destruct (coalesce_loop_inv (WidgetStates.widgets old_states) _ Hnd Hwk) as [Hk Hw].
  set (d := fold_left coalesce_step _ _) in *.
  assert (identities (Dict.values d) = Dict.keys d) as ->; [|by rewrite Hk].
  clear Hk. unfold identities, Dict.values, Dict.keys, well_keyed in *.
  induction Hw as [|[k w] d' Hkw _ IH]; simpl; [done|].
  simpl in Hkw. by rewrite Hkw, IH.
Qed.

Lemma coalesce_loop_no_fired old d :
  Forall (fun w => fired w = false) old → fold_left coalesce_step old d = d.
Proof.
  intros Hold. revert d. induction Hold as [|o old Ho _ IH]; intros d; simpl; [done|].
  rewrite <- (IH d) at 2. f_equal. unfold coalesce_step.
  fold (in_trigger_slot o). fold (fired o). by rewrite Ho.
Qed.

Lemma states_by_id_fresh ws d :
  NoDup (Dict.keys d ++ identities ws) →
  fold_left (fun d wstate => Dict.set d (WidgetState.id wstate) wstate) ws d
  = d ++ map (fun w => (WidgetState.id w, w)) ws.
Proof.
  revert d. induction ws as [|w ws IH]; intros d Hnd; simpl.
  - by rewrite app_nil_r.
  - simpl in Hnd. apply NoDup_app in Hnd as (Hd & Hdis & Hws).
    apply NoDup_cons in Hws as [Hw Hws].
    assert (WidgetState.id w ∉ Dict.keys d) as Hfresh.
    { intros Hin. apply (Hdis _ Hin). left. }
    rewrite dict_set_absent by done. rewrite IH.
    + by rewrite <- app_assoc.
    + unfold Dict.keys. rewrite map_app. simpl. rewrite <- app_assoc. simpl.
      fold (Dict.keys d). apply NoDup_app. split; [done|]. split.
      * intros k Hk. apply Hdis in Hk. done.
      * by constructor.
Qed.

Lemma states_by_id_of_values ws :
  NoDup (identities ws) → Dict.values (states_by_id_of ws) = ws.
Proof.
  intros Hnd. unfold states_by_id_of. rewrite states_by_id_fresh by done.
  simpl. unfold Dict.values. rewrite map_map. simpl. apply map_id.
Qed.

(** With no fired trigger in the old snapshot and unique identities
    in the new one, coalescing hands back the new snapshot, entries in
    their order. *)
Lemma coalesce_no_fired_old old_states new_states :
  Forall (fun w => fired w = false) (WidgetStates.widgets old_states) →
  NoDup (identities (WidgetStates.widgets new_states)) →
  coalesce_widget_states old_states new_states = new_states.
Proof.
  intros Hold Hnd. unfold coalesce_widget_states. simpl.
  rewrite coalesce_loop_no_fired by done.
  rewrite states_by_id_of_values by done. by destruct new_states.
Qed.

(** C1. Trigger preservation: when the old snapshot holds a fired
    trigger for an identity and the new snapshot holds a trigger-slot
    value for the same identity, whatever its boolean, the coalesced
    snapshot holds the old entry, the fired trigger, for that identity. *)
Theorem coalesce_trigger_preserved
    (old_states new_states : WidgetStates.t) (i : string) (b : bool) :
  In (fired_trigger i) (WidgetStates.widgets old_states) →
  entry_of (WidgetStates.widgets new_states) i = Some (WidgetState.mk i (trigger_value b)) →
  let coalesced := WidgetStates.widgets (coalesce_widget_states old_states new_states) in
  entry_of coalesced i = Some (fired_trigger i) ∧ In (fired_trigger i) coalesced.
Proof.
  intros Hold Hnew coalesced.
  assert (entry_of coalesced i = Some (fired_trigger i)) as He.
  { unfold coalesced. rewrite coalesce_entry_of, Hnew.
    apply fired_in_spec in Hold. by rewrite Hold. }
  split; [done|]. by apply entry_of_In in He as [? _].
Qed.

Lemma coalesce_trigger_preserved_witness :
  let old_states := WidgetStates.mk [WidgetState.mk "b" (trigger_value true)] in
  let new_states := WidgetStates.mk [WidgetState.mk "b" (trigger_value false)] in
  let coalesced := WidgetStates.widgets (coalesce_widget_states old_states new_states) in
  entry_of coalesced "b" = Some (fired_trigger "b") ∧ In (fired_trigger "b") coalesced.
Proof.
  apply (coalesce_trigger_preserved
           (WidgetStates.mk [WidgetState.mk "b" (trigger_value true)])
           (WidgetStates.mk [WidgetState.mk "b" (trigger_value false)])
           "b" false).
  - simpl. left. reflexivity.
  - reflexivity.
Defined.

(** C2. Trigger non-leak and absence handling: for an identity whose
    old entry is a fired trigger, if the new snapshot does not hold the
    identity then neither does the coalesced one, and if the new
    snapshot holds it in a slot other than the trigger slot then the
    coalesced snapshot holds exactly that new entry. *)
Theorem coalesce_trigger_no_leak
    (old_states new_states : WidgetStates.t) (i : string) :
  In (fired_trigger i) (WidgetStates.widgets old_states) →
  let coalesced := WidgetStates.widgets (coalesce_widget_states old_states new_states) in
  (entry_of (WidgetStates.widgets new_states) i = None →
     entry_of coalesced i = None ∧ i ∉ identities coalesced)
  ∧ (∀ w, entry_of (WidgetStates.widgets new_states) i = Some w →
       in_trigger_slot w = false →
       entry_of coalesced i = Some w).
Proof.
  intros _ coalesced. split.
  - intros Hnew.
    assert (entry_of coalesced i = None) as He.
    { unfold coalesced. by rewrite coalesce_entry_of, Hnew. }
    split; [done | by apply entry_of_None].
  - intros w Hnew Hw. unfold coalesced. by rewrite coalesce_entry_of, Hnew, Hw.
Qed.

Lemma coalesce_trigger_no_leak_witness :
  let old_states := WidgetStates.mk [WidgetState.mk "b" (trigger_value true)] in
  (coalesce_widget_states old_states (WidgetStates.mk []) = WidgetStates.mk [])
  ∧ (let new_states := WidgetStates.mk [WidgetState.mk "b" (string_value "x")] in
     entry_of (WidgetStates.widgets (coalesce_widget_states old_states new_states)) "b"
     = Some (WidgetState.mk "b" (string_value "x"))).
Proof.
  split.
  - reflexivity.
  - apply (coalesce_trigger_no_leak
             (WidgetStates.mk [WidgetState.mk "b" (trigger_value true)])
             (WidgetStates.mk [WidgetState.mk "b" (string_value "x")]) "b").
    + simpl. left. reflexivity.
    + reflexivity.
    + reflexivity.
Defined.

(** C6, as worded, fails: a trigger the client reports fired in the
    new snapshot is in the coalesced one although the old snapshot is
    empty. *)
Lemma fired_only_from_old_fails : ¬ fired_only_from_old.
Proof.
  intros H.
  specialize (H (WidgetStates.mk [])
                (WidgetStates.mk [WidgetState.mk "b" (trigger_value true)])
                "b"%string (WidgetState.mk "b" (trigger_value true))
                eq_refl eq_refl).
  destruct H.
Qed.

(** C6, amended. A fired trigger held by the coalesced snapshot for an
    identity was held, fired, for that identity by the old snapshot or
    by the new one; and the new snapshot holds a trigger-slot entry for
    that identity, so no fired trigger lands on an identity whose new
    entry occupies another slot. *)
Theorem coalesce_fired_origin
    (old_states new_states : WidgetStates.t) (i : string) (w : WidgetState.t) :
  entry_of (WidgetStates.widgets (coalesce_widget_states old_states new_states)) i = Some w →
  fired w = true →
  (In w (WidgetStates.widgets old_states)
   ∨ entry_of (WidgetStates.widgets new_states) i = Some w)
  ∧ (∃ w', entry_of (WidgetStates.widgets new_states) i = Some w'
           ∧ in_trigger_slot w' = true).
Proof.
  rewrite coalesce_entry_of. intros He Hw.
  destruct (entry_of (WidgetStates.widgets new_states) i) as [w'|] eqn:Hnew; [|done].
  destruct (in_trigger_slot w') eqn:Hslot; simpl in He.
  - split; [|eauto].
    destruct (fired_in (WidgetStates.widgets old_states) i) eqn:Hold.
    + left. injection He as <-. by apply fired_in_spec.
    + right. done.
  - injection He as ->. unfold fired in Hw. by rewrite Hslot in Hw.
Qed.

Lemma coalesce_fired_origin_witness :
  let old_states := WidgetStates.mk [WidgetState.mk "b" (trigger_value true)] in
  let new_states := WidgetStates.mk [WidgetState.mk "a" (string_value "x");
                                     WidgetState.mk "b" (trigger_value false)] in
  (In (fired_trigger "b") (WidgetStates.widgets old_states)
   ∨ entry_of (WidgetStates.widgets new_states) "b" = Some (fired_trigger "b"))
  ∧ (∃ w', entry_of (WidgetStates.widgets new_states) "b" = Some w'
           ∧ in_trigger_slot w' = true).
Proof.
  apply (coalesce_fired_origin
           (WidgetStates.mk [WidgetState.mk "b" (trigger_value true)])
           (WidgetStates.mk [WidgetState.mk "a" (string_value "x");
                             WidgetState.mk "b" (trigger_value false)])
           "b" (fired_trigger "b")).
  - reflexivity.
  - reflexivity.
Defined.

(** C7. Non-trigger neutrality: when no entry of either snapshot
    occupies the trigger slot and the new snapshot has unique
    identities, the coalesced snapshot is the new snapshot up to the
    order of entries. *)
Theorem coalesce_non_trigger_neutral (old_states new_states : WidgetStates.t) :
  Forall (fun w => in_trigger_slot w = false) (WidgetStates.widgets old_states) →
  Forall (fun w => in_trigger_slot w = false) (WidgetStates.widgets new_states) →
  NoDup (identities (WidgetStates.widgets new_states)) →
  Permutation (WidgetStates.widgets (coalesce_widget_states old_states new_states))
              (WidgetStates.widgets new_states).
Proof.
  intros Hold _ Hnd. rewrite coalesce_no_fired_old; [done | | done].
  eapply Forall_impl; [exact Hold|]. intros w Hw. unfold fired. by rewrite Hw.
Qed.

Lemma coalesce_non_trigger_neutral_witness :
  let old_states := WidgetStates.mk [WidgetState.mk "a" (string_value "old");
                                     WidgetState.mk "c" (bool_value true)] in
  let new_states := WidgetStates.mk [WidgetState.mk "b" (int_value 3);
                                     WidgetState.mk "a" (string_value "new")] in
  Permutation (WidgetStates.widgets (coalesce_widget_states old_states new_states))
              (WidgetStates.widgets new_states).
Proof.
  apply (coalesce_non_trigger_neutral
           (WidgetStates.mk [WidgetState.mk "a" (string_value "old");
                             WidgetState.mk "c" (bool_value true)])
           (WidgetStates.mk [WidgetState.mk "b" (int_value 3);
                             WidgetState.mk "a" (string_value "new")])).
  - repeat constructor.
  - repeat constructor.
  - simpl. apply (bool_decide_unpack _). vm_compute. exact I.
Defined.

(** ** The registrar *)

Section RegistrarFacts.

Variables T UiValue WidgetCallback WidgetArgs WidgetKwargs SessionState : Type.
Variable GENERATED_WIDGET_KEY_PREFIX : string.
Variable SerializeToString : WidgetProto.t → list byte.
Variable SessionState_register_widget :
  SessionState → WidgetMetadata T UiValue WidgetCallback WidgetArgs WidgetKwargs →
  option string → RegisterWidgetResult.t T * SessionState.

(* The collaborators are the same throughout the section: the three
   functions are written without them. *)
Local Abbreviation _get_widget_id :=
  (_get_widget_id GENERATED_WIDGET_KEY_PREFIX SerializeToString).
Local Abbreviation register_in_context :=
  (register_in_context T UiValue WidgetCallback WidgetArgs WidgetKwargs SessionState
     SessionState_register_widget).
Local Abbreviation register_widget :=
  (register_widget T UiValue WidgetCallback WidgetArgs WidgetKwargs SessionState
     GENERATED_WIDGET_KEY_PREFIX SerializeToString SessionState_register_widget).

Implicit Types (element_type widget_id : string) (element_proto : WidgetProto.t).
Implicit Types (user_key widget_func_name : option string).
Implicit Types (ctx : ScriptRunContext SessionState).

(* The table, the message and the digest are never unfolded by the
   proofs of this section. *)
Local Opaque ELEMENT_TYPE_TO_VALUE_TYPE _build_duplicate_widget_message MD5.hexdigest.

(** The paths through the part of [register_widget] that runs against
    a context, each with the context it leaves. *)
Lemma register_in_context_paths element_type widget_id deserializer serializer
    user_key widget_func_name on_change_handler args kwargs ctx :
  let ids := widget_ids_this_run ctx in
  let keys := widget_user_keys_this_run ctx in
  let message :=
    _build_duplicate_widget_message (reported_name widget_func_name element_type) user_key in
  register_in_context element_type widget_id deserializer serializer user_key widget_func_name
    on_change_handler args kwargs ctx
  = if key_already_claimed user_key keys
    then (Raise (DuplicateWidgetID message), ctx)
    else if bool_decide (widget_id ∈ ids)
    then (Raise (DuplicateWidgetID message),
          mkScriptRunContext ids (with_user_key user_key keys) (session_state ctx))
    else match ELEMENT_TYPE_TO_VALUE_TYPE !! element_type with
         | None =>
             (Raise (KeyError element_type),
              mkScriptRunContext (ids ∪ {[widget_id]}) (with_user_key user_key keys)
                (session_state ctx))
         | Some value_type =>
             let metadata :=
               mkWidgetMetadata widget_id deserializer serializer value_type
                 on_change_handler args kwargs in
             let '(result, session_state') :=
               SessionState_register_widget (session_state ctx) metadata user_key in
             (Return result,
              mkScriptRunContext (ids ∪ {[widget_id]}) (with_user_key user_key keys)
                session_state')
         end.
Proof.
  destruct ctx as [ids keys st]. simpl.
  unfold register_in_context, bind, gets, add_user_key, add_widget_id, raise, ret,
    value_type_of, session_state_register_widget, key_already_claimed.
  destruct user_key as [key|]; simpl.
  - destruct (decide (key ∈ keys)) as [Hk|Hk].
    + rewrite (bool_decide_eq_false_2 (key ∉ keys)) by auto.
      by rewrite bool_decide_eq_true_2.
    + rewrite (bool_decide_eq_true_2 (key ∉ keys)) by auto.
      rewrite (bool_decide_eq_false_2 (key ∈ keys)) by done.
      simpl. destruct (decide (widget_id ∈ ids)) as [Hi|Hi].
      * rewrite (bool_decide_eq_false_2 (widget_id ∉ ids)) by auto.
        by rewrite bool_decide_eq_true_2.
      * rewrite (bool_decide_eq_true_2 (widget_id ∉ ids)) by auto.
        rewrite bool_decide_eq_false_2 by done. simpl.
        destruct (ELEMENT_TYPE_TO_VALUE_TYPE !! element_type); simpl; [|done].
        by destruct (SessionState_register_widget _ _ _).
  - destruct (decide (widget_id ∈ ids)) as [Hi|Hi].
    + rewrite (bool_decide_eq_false_2 (widget_id ∉ ids)) by auto.
      by rewrite bool_decide_eq_true_2.
    + rewrite (bool_decide_eq_true_2 (widget_id ∉ ids)) by auto.
      rewrite bool_decide_eq_false_2 by done. simpl.
      destruct (ELEMENT_TYPE_TO_VALUE_TYPE !! element_type); simpl; [|done].
      by destruct (SessionState_register_widget _ _ _).
Qed.

Lemma key_already_claimed_spec user_key (claimed : gset string) :
  key_already_claimed user_key claimed = true ↔ ∃ key, user_key = Some key ∧ key ∈ claimed.
Proof.
  unfold key_already_claimed. destruct user_key as [key|].
  - rewrite bool_decide_eq_true. split; [eauto | by intros (? & [= <-] & ?)].
  - split; [done | by intros (? & [=] & ?)].
Qed.

(** C3. Duplicate detection: with a run context present, the call
    raises [DuplicateWidgetID] exactly when a user key is supplied that
    this run has claimed already, or the derived identity is one this
    run has claimed already; against a fresh run, whose claim sets are
    empty, it does not raise it. *)
Theorem register_duplicate_iff element_type element_proto deserializer serializer
    ctx user_key widget_func_name on_change_handler args kwargs :
  let '(result, _, _) :=
    register_widget element_type element_proto deserializer serializer (Some ctx)
      user_key widget_func_name on_change_handler args kwargs in
  (raises_DuplicateWidgetID result ↔
     (∃ key, user_key = Some key ∧ key ∈ widget_user_keys_this_run ctx)
     ∨ _get_widget_id element_type element_proto user_key ∈ widget_ids_this_run ctx)
  ∧ (widget_user_keys_this_run ctx = ∅ → widget_ids_this_run ctx = ∅ →
     ¬ raises_DuplicateWidgetID result).
Proof.
  unfold register_widget. rewrite register_in_context_paths.
  set (widget_id := _get_widget_id element_type element_proto user_key).
  pose proof (key_already_claimed_spec user_key (widget_user_keys_this_run ctx)) as Hspec.
  destruct (key_already_claimed user_key _) eqn:Hk.
  { split.
    - split; [intros _; left; by apply Hspec | intros _; eexists; done].
    - intros Hkeys _ _. destruct Hspec as [(key & _ & Hin) _]; [done|].
      rewrite Hkeys in Hin. set_solver. }
  destruct (decide (widget_id ∈ widget_ids_this_run ctx)) as [Hi|Hi].
  { rewrite bool_decide_eq_true_2 by done. split.
    - split; [intros _; by right | intros _; eexists; done].
    - intros _ Hids _. rewrite Hids in Hi. set_solver. }
  rewrite bool_decide_eq_false_2 by done.
  assert (¬ ((∃ key, user_key = Some key ∧ key ∈ widget_user_keys_this_run ctx)
             ∨ widget_id ∈ widget_ids_this_run ctx)) as Hno.
  { intros [He|?]; [apply Hspec in He; done | done]. }
  destruct (ELEMENT_TYPE_TO_VALUE_TYPE !! element_type).
  - cbv zeta. destruct (SessionState_register_widget _ _ _).
    split; [split; [intros [? [=]] | intros ?; done] | intros _ _ [? [=]]].
  - split; [split; [intros [? [=]] | intros ?; done] | intros _ _ [? [=]]].
Qed.

(** What a call does to the claim sets, outcome by outcome: a call
    that returns has added the identity, new to the run, and the
    supplied key, new to the run; a call that raises
    [DuplicateWidgetID] over an already claimed key leaves the context
    as it was; a call that raises it over an already claimed identity
    leaves the identity set and the session store as they were, the
    key set holding the supplied key by then. *)
Lemma register_claim_sets element_type element_proto deserializer serializer
    ctx user_key widget_func_name on_change_handler args kwargs :
  let widget_id := _get_widget_id element_type element_proto user_key in
  let ids := widget_ids_this_run ctx in
  let keys := widget_user_keys_this_run ctx in
  let '(result, _, ctx') :=
    register_widget element_type element_proto deserializer serializer (Some ctx)
      user_key widget_func_name on_change_handler args kwargs in
  ∃ after, ctx' = Some after ∧
    match result with
    | Return _ =>
        (widget_id ∉ ids) ∧ key_already_claimed user_key keys = false
        ∧ widget_ids_this_run after = ids ∪ {[widget_id]}
        ∧ widget_user_keys_this_run after = with_user_key user_key keys
    | Raise (DuplicateWidgetID _) =>
        if key_already_claimed user_key keys then after = ctx
        else widget_id ∈ ids
             ∧ widget_ids_this_run after = ids
             ∧ widget_user_keys_this_run after = with_user_key user_key keys
             ∧ session_state after = session_state ctx
    | Raise _ => True
    end.
Proof.
  intros widget_id ids keys. unfold register_widget.
  rewrite register_in_context_paths. fold widget_id ids keys.
  destruct (key_already_claimed user_key keys) eqn:Hk.
  { eexists. split; [done|]. simpl. done. }
  destruct (decide (widget_id ∈ ids)) as [Hi|Hi].
  { rewrite bool_decide_eq_true_2 by done.
    eexists. split; [done|]. simpl. done. }
  rewrite bool_decide_eq_false_2 by done.
  destruct (ELEMENT_TYPE_TO_VALUE_TYPE !! element_type).
  - cbv zeta. destruct (SessionState_register_widget _ _ _).
    eexists. split; [done|]. simpl. done.
  - eexists. split; done.
Qed.


(** *** The identity deriver *)

Lemma append_inv_head (s a b : string) : (s ++ a = s ++ b)%string → a = b.
Proof. induction s as [|c s IH]; simpl; [done|]. intros [= H]. auto. Qed.

(** The identity is the prefix, a dash, the hex digest of the type's
    bytes followed by the serialized descriptor, a dash, and the key as
    [str] prints it. *)
Lemma get_widget_id_format element_type element_proto user_key :
  _get_widget_id element_type element_proto user_key
  = (GENERATED_WIDGET_KEY_PREFIX ++ "-"
     ++ MD5.hexdigest (encode_utf8 element_type ++ SerializeToString element_proto)
     ++ "-" ++ str_of_optional user_key)%string.
Proof. reflexivity. Qed.

(** The identity depends on the descriptor through its serialized
    bytes only. *)
Lemma get_widget_id_same_bytes element_type p1 p2 user_key :
  SerializeToString p1 = SerializeToString p2 →
  _get_widget_id element_type p1 user_key = _get_widget_id element_type p2 user_key.
Proof. intros H. by rewrite !get_widget_id_format, H. Qed.

(** Two calls that differ in the key only agree exactly when the two
    keys print alike. *)
Lemma get_widget_id_key_iff element_type element_proto k1 k2 :
  _get_widget_id element_type element_proto k1 = _get_widget_id element_type element_proto k2
  ↔ str_of_optional k1 = str_of_optional k2.
Proof.
  rewrite !get_widget_id_format. split; [|by intros ->].
  intros H. by do 4 apply append_inv_head in H.
Qed.

Lemma str_of_optional_eq k1 k2 :
  str_of_optional k1 = str_of_optional k2 →
  k1 = k2 ∨ (k1 = None ∧ k2 = Some "None"%string) ∨ (k1 = Some "None"%string ∧ k2 = None).
Proof. destruct k1, k2; simpl; intros; subst; auto. Qed.

(** Two keys that are both present, or of which neither is the text
    [None], give two identities. *)
Lemma get_widget_id_key_distinct element_type element_proto k1 k2 :
  k1 ≠ k2 →
  ¬ (k1 = None ∧ k2 = Some "None"%string) → ¬ (k1 = Some "None"%string ∧ k2 = None) →
  _get_widget_id element_type element_proto k1 ≠ _get_widget_id element_type element_proto k2.
Proof.
  intros Hne H1 H2 Heq. apply get_widget_id_key_iff, str_of_optional_eq in Heq. tauto.
Qed.

(** C8. The derived identity at the input where the claim fails: no
    key, and the key spelled [None], differ as keys and give the same
    identity, whatever the type and the descriptor. *)
Theorem get_widget_id_absent_key_collision element_type element_proto :
  (None : option string) ≠ Some "None"%string
  ∧ _get_widget_id element_type element_proto None
    = _get_widget_id element_type element_proto (Some "None"%string).
Proof. split; [done | reflexivity]. Qed.

End RegistrarFacts.

(** ** The model at work *)

Example md5_empty :
  MD5.hexdigest [] = "d41d8cd98f00b204e9800998ecf8427e"%string.
Proof. vm_compute. reflexivity. Qed.

Example md5_abc :
  MD5.hexdigest (encode_utf8 "abc") = "900150983cd24fb0d6963f7d28e17f72"%string.
Proof. vm_compute. reflexivity. Qed.

Example md5_two_blocks :
  MD5.hexdigest (encode_utf8
    "12345678901234567890123456789012345678901234567890123456789012345678901234567890")
  = "57edf4a22be3c955ac49da2e2107b67a"%string.
Proof. vm_compute. reflexivity. Qed.

Example ok_button_id :
  Sample.get_widget_id "button" Sample.ok_button None
  = "$$GENERATED_WIDGET_KEY-4a86cb11fd769a102f4c9eb3c751b258-None"%string.
Proof. vm_compute. reflexivity. Qed.

Example duplicate_key_message :
  _build_duplicate_widget_message "button" (Some "go"%string)
  = ("There are multiple identical `st.button` widgets with" ++ nl ++
     "`key='go'`." ++ nl ++ nl ++
     "To fix this, please make sure that the `key` argument is unique for" ++ nl ++
     "each `st.button` you create.")%string.
Proof. reflexivity. Qed.

(** C5. The code at the input where the claim fails: in one run a
    button is declared with no key and then, identically, with the key
    spelled [None]; the two get one identity, so the second call
    raises [DuplicateWidgetID] over the identity, and by then the key
    set is no longer what it was before the call. *)
Lemma register_identity_clash_claims_key :
  let '(_, _, ctx1) :=
    Sample.register "button" Sample.ok_button (Some Sample.fresh_run) None in
  let '(result, _, ctx2) :=
    Sample.register "button" Sample.ok_button ctx1 (Some "None"%string) in
  raises_DuplicateWidgetID result
  ∧ (widget_user_keys_this_run <$> ctx2) ≠ (widget_user_keys_this_run <$> ctx1).
Proof.
  vm_compute. split.
  - eexists. reflexivity.
  - intros [=].
Qed.

Lemma register_duplicate_iff_witness :
  let '(result, _, _) :=
    Sample.register "button" Sample.ok_button (Some Sample.fresh_run) None in
  ¬ raises_DuplicateWidgetID result.
Proof.
  pose proof (register_duplicate_iff bool bool unit unit unit Sample.Store
                Sample.PREFIX Sample.SerializeToString Sample.store_register
                "button" Sample.ok_button Sample.button_deserializer
                Sample.button_serializer Sample.fresh_run None None None None None) as H.
  unfold Sample.register.
  destruct (register_widget _ _ _ _ _ _ _ _ _ _ _ _ _ _ _ _ _ _ _) as [[result ?] ?].
  destruct H as [_ H]. apply H; reflexivity.
Defined.

(** Section 8, collision detection: the same explicit key twice in a
    run; no key and the same type and configuration twice in a run; the
    same declaration in two runs. *)
Example same_key_twice_raises :
  let '(_, _, ctx1) :=
    Sample.register "button" Sample.ok_button (Some Sample.fresh_run) (Some "go"%string) in
  let '(result, _, _) :=
    Sample.register "checkbox" (WidgetProto.mk "" [x12; x01; x41]) ctx1 (Some "go"%string) in
  raises_DuplicateWidgetID result.
Proof. vm_compute. eexists. reflexivity. Qed.

Example same_widget_twice_raises :
  let '(_, _, ctx1) :=
    Sample.register "button" Sample.ok_button (Some Sample.fresh_run) None in
  let '(result, _, _) := Sample.register "button" Sample.ok_button ctx1 None in
  raises_DuplicateWidgetID result.
Proof. vm_compute. eexists. reflexivity. Qed.

Example same_widget_two_runs_returns :
  let '(first, _, _) :=
    Sample.register "button" Sample.ok_button (Some Sample.fresh_run) None in
  let '(second, _, _) :=
    Sample.register "button" Sample.ok_button (Some Sample.fresh_run) None in
  first = Return (RegisterWidgetResult.mk false false) ∧ second = first.
Proof. vm_compute. split; reflexivity. Qed.

(** Section 8, the three coalescing examples. *)
Example trigger_preservation_example :
  coalesce_widget_states
    (WidgetStates.mk [WidgetState.mk "b" (trigger_value true)])
    (WidgetStates.mk [WidgetState.mk "b" (trigger_value false)])
  = WidgetStates.mk [WidgetState.mk "b" (trigger_value true)].
Proof. reflexivity. Qed.

Example trigger_type_change_example :
  coalesce_widget_states
    (WidgetStates.mk [WidgetState.mk "b" (trigger_value true)])
    (WidgetStates.mk [WidgetState.mk "b" (string_value "x")])
  = WidgetStates.mk [WidgetState.mk "b" (string_value "x")].
Proof. reflexivity. Qed.

Example trigger_absent_example :
  coalesce_widget_states
    (WidgetStates.mk [WidgetState.mk "b" (trigger_value true)])
    (WidgetStates.mk [])
  = WidgetStates.mk [].
Proof. reflexivity. Qed.

(** Section 8, the end-to-end scenario: the first run declares a
    button and gets identity [I1]; the client reports it fired, and
    coalescing against the empty snapshot keeps that; the second run
    declares the same button, gets [I1] again and no collision; a later
    report of the trigger at rest, coalesced against an old snapshot
    that no longer holds it fired, stays at rest. *)
Example end_to_end :
  let '(first, p1, ctx1) :=
    Sample.register "button" Sample.ok_button (Some Sample.fresh_run) None in
  let I1 := WidgetProto.id p1 in
  let fired_report := WidgetStates.mk [WidgetState.mk I1 (trigger_value true)] in
  let rest_report := WidgetStates.mk [WidgetState.mk I1 (trigger_value false)] in
  let '(second, p2, _) :=
    Sample.register "button" Sample.ok_button (Some Sample.fresh_run) None in
  (elements <$> (widget_ids_this_run <$> ctx1)) = Some [I1]
  ∧ coalesce_widget_states (WidgetStates.mk []) fired_report = fired_report
  ∧ WidgetProto.id p2 = I1
  ∧ second = Return (RegisterWidgetResult.mk false false)
  ∧ coalesce_widget_states (WidgetStates.mk []) rest_report = rest_report.
Proof. vm_compute. repeat split; reflexivity. Qed.

(** * Further properties *)

(** ** The coalescer as a whole *)

(** Two dictionaries with the same keys, in the same order and without
    repeats, and the same value under every key, are the same. *)
Lemma dict_ext {V : Type} (d1 d2 : Dict.t V) :
  Dict.keys d1 = Dict.keys d2 → NoDup (Dict.keys d1) →
  (∀ k, Dict.get d1 k = Dict.get d2 k) → d1 = d2.
Proof.
  revert d2. induction d1 as [|[k v1] d1 IH]; intros [|[k2 v2] d2]; simpl; try done.
  intros [= <- Hkeys] Hnd Hget. apply NoDup_cons in Hnd as [Hk Hnd].
  pose proof (Hget k) as Hhd. rewrite !decide_True in Hhd by done.
  injection Hhd as <-. f_equal. apply IH; [done | done |].
  intros k'. specialize (Hget k'). destruct (decide (k = k')) as [<-|Hne]; [|done].
  pose proof Hk as Hk2. rewrite Hkeys in Hk2.
  apply dict_get_None in Hk, Hk2. by rewrite Hk, Hk2.
Qed.

Lemma dict_get_map_unique (g : WidgetState.t → WidgetState.t) ws i :
  NoDup (identities ws) →
  Dict.get (map (fun w => (WidgetState.id w, g w)) ws) i = g <$> entry_of ws i.
Proof.
  induction ws as [|w ws IH]; simpl; [done|].
  intros Hnd. apply NoDup_cons in Hnd as [Hw Hnd]. rewrite IH by done.
  destruct (decide (WidgetState.id w = i)) as [<-|Hne].
  - apply entry_of_None in Hw. by rewrite Hw.
  - by destruct (entry_of ws i).
Qed.

Lemma reassert_id old w : WidgetState.id (reassert old w) = WidgetState.id w.
Proof. unfold reassert. by destruct (_ && _). Qed.

(** With unique identities in the new snapshot, the coalesced one is
    the new one, entry by entry and in order, each entry put through
    [reassert]. *)
Lemma coalesce_map_reassert old_states new_states :
  NoDup (identities (WidgetStates.widgets new_states)) →
  WidgetStates.widgets (coalesce_widget_states old_states new_states)
  = map (reassert (WidgetStates.widgets old_states)) (WidgetStates.widgets new_states).
Proof.
  destruct old_states as [old], new_states as [new]. simpl. intros Hnd.
  destruct (states_by_id_inv new []) as [Hnd0 Hwk0]; [constructor | constructor |].
  fold (states_by_id_of new) in Hnd0, Hwk0.
  destruct (coalesce_loop_inv old _ Hnd0 Hwk0) as [Hk Hw].
  assert (Dict.keys (states_by_id_of new) = identities new) as Hkeys.
  { unfold states_by_id_of. rewrite states_by_id_fresh by done. simpl.
    unfold Dict.keys, identities. by rewrite map_map. }
  assert (fold_left coalesce_step old (states_by_id_of new)
          = map (fun w => (WidgetState.id w, reassert old w)) new) as ->.
  { apply dict_ext.
    - rewrite Hk, Hkeys. unfold Dict.keys, identities. by rewrite map_map.
    - by rewrite Hk.
    - intros i. rewrite coalesce_loop_get, states_by_id_of_get, dict_get_map_unique by done.
      destruct (entry_of new i) as [w|] eqn:He; [|done]. simpl.
      apply entry_of_In in He as [_ <-]. unfold reassert. by destruct (_ && _). }
  unfold Dict.values. by rewrite map_map.
Qed.

(** X1. With unique identities in the new snapshot, coalescing is an
    entry-wise rewrite of it: same identities, same order, same
    length, and each entry is the fired trigger when it is a trigger
    whose identity the old snapshot holds fired, the new entry itself
    otherwise. *)
Theorem coalesce_entrywise (old_states new_states : WidgetStates.t) :
  NoDup (identities (WidgetStates.widgets new_states)) →
  let coalesced := WidgetStates.widgets (coalesce_widget_states old_states new_states) in
  coalesced
  = map (reassert (WidgetStates.widgets old_states)) (WidgetStates.widgets new_states)
  ∧ identities coalesced = identities (WidgetStates.widgets new_states)
  ∧ length coalesced = length (WidgetStates.widgets new_states).
Proof.
  intros Hnd coalesced. unfold coalesced. rewrite coalesce_map_reassert by done.
  split; [done|]. split.
  - unfold identities. rewrite map_map. apply map_ext. intros w. apply reassert_id.
  - apply length_map.
Qed.

Lemma coalesce_entrywise_witness :
  WidgetStates.widgets
    (coalesce_widget_states
       (WidgetStates.mk [WidgetState.mk "b" (trigger_value true);
                         WidgetState.mk "t" (string_value "old")])
       (WidgetStates.mk [WidgetState.mk "t" (string_value "new");
                         WidgetState.mk "b" (trigger_value false);
                         WidgetState.mk "c" (trigger_value false)]))
  = [WidgetState.mk "t" (string_value "new");
     WidgetState.mk "b" (trigger_value true);
     WidgetState.mk "c" (trigger_value false)].
Proof.
  refine (proj1 (coalesce_entrywise
           (WidgetStates.mk [WidgetState.mk "b" (trigger_value true);
                             WidgetState.mk "t" (string_value "old")])
           (WidgetStates.mk [WidgetState.mk "t" (string_value "new");
                             WidgetState.mk "b" (trigger_value false);
                             WidgetState.mk "c" (trigger_value false)]) _)).
  simpl. apply (bool_decide_unpack _). vm_compute. exact I.
Defined.

(** X2. Whatever the two snapshots, repeats included, the coalesced
    snapshot holds each identity once, holds exactly the identities of
    the new snapshot, and is no longer than it: coalescing neither
    brings an identity in from the old snapshot nor loses one of the
    new. *)
Theorem coalesce_identities (old_states new_states : WidgetStates.t) :
  let coalesced := WidgetStates.widgets (coalesce_widget_states old_states new_states) in
  NoDup (identities coalesced)
  ∧ (∀ i, i ∈ identities coalesced ↔ i ∈ identities (WidgetStates.widgets new_states))
  ∧ (length coalesced ≤ length (WidgetStates.widgets new_states))%nat.
Proof.
  intros coalesced.
  assert (∀ i, i ∈ identities coalesced ↔ i ∈ identities (WidgetStates.widgets new_states))
    as Hsame.
  { intros i. unfold coalesced.
    destruct (decide (i ∈ identities
                (WidgetStates.widgets (coalesce_widget_states old_states new_states))))
      as [Hin|Hin];
    destruct (decide (i ∈ identities (WidgetStates.widgets new_states))) as [Hin'|Hin'];
      try tauto; exfalso.
    - apply entry_of_None in Hin'.
      assert (entry_of (WidgetStates.widgets
                (coalesce_widget_states old_states new_states)) i = None) as Hout
        by (by rewrite coalesce_entry_of, Hin').
      by apply entry_of_None in Hout.
    - apply entry_of_None in Hin. rewrite coalesce_entry_of in Hin.
      destruct (entry_of (WidgetStates.widgets new_states) i) eqn:Hnew.
      + by destruct (_ && _).
      + by apply entry_of_None in Hnew. }
  split; [apply coalesce_identities_NoDup|]. split; [done|].
  rewrite <- (length_map WidgetState.id coalesced).
  rewrite <- (length_map WidgetState.id (WidgetStates.widgets new_states)).
  apply NoDup_incl_length.
  - apply NoDup_ListNoDup, coalesce_identities_NoDup.
  - intros i Hi. apply list_elem_of_In. apply Hsame. by apply list_elem_of_In.
Qed.

Lemma WidgetStates_eq (a b : WidgetStates.t) :
  WidgetStates.widgets a = WidgetStates.widgets b → a = b.
Proof. destruct a, b. simpl. by intros ->. Qed.

(** X3. The old snapshot counts only through the fired triggers it
    holds: two old snapshots holding the same fired triggers, in
    whatever order and among whatever other entries, coalesce with a
    new snapshot to the same result. *)
Theorem coalesce_old_through_fired (old_states old_states' new_states : WidgetStates.t) :
  (∀ i, In (fired_trigger i) (WidgetStates.widgets old_states)
        ↔ In (fired_trigger i) (WidgetStates.widgets old_states')) →
  coalesce_widget_states old_states new_states
  = coalesce_widget_states old_states' new_states.
Proof.
  intros Hsame. apply WidgetStates_eq. unfold coalesce_widget_states. simpl. f_equal.
  destruct (states_by_id_inv (WidgetStates.widgets new_states) [])
    as [Hnd Hwk]; [constructor | constructor |].
  fold (states_by_id_of (WidgetStates.widgets new_states)) in Hnd, Hwk.
  destruct (coalesce_loop_inv (WidgetStates.widgets old_states) _ Hnd Hwk) as [Hk _].
  destruct (coalesce_loop_inv (WidgetStates.widgets old_states') _ Hnd Hwk) as [Hk' _].
  apply dict_ext.
  - by rewrite Hk, Hk'.
  - by rewrite Hk.
  - intros i. rewrite !coalesce_loop_get.
    assert (fired_in (WidgetStates.widgets old_states) i
            = fired_in (WidgetStates.widgets old_states') i) as ->; [|done].
    apply eq_true_iff_eq. rewrite !fired_in_spec. apply Hsame.
Qed.

Lemma coalesce_old_through_fired_witness :
  coalesce_widget_states
    (WidgetStates.mk [WidgetState.mk "b" (trigger_value true);
                      WidgetState.mk "t" (string_value "old")])
    (WidgetStates.mk [WidgetState.mk "b" (trigger_value false)])
  = coalesce_widget_states
      (WidgetStates.mk [WidgetState.mk "x" (bool_value true);
                        WidgetState.mk "b" (trigger_value true)])
      (WidgetStates.mk [WidgetState.mk "b" (trigger_value false)]).
Proof.
  apply (coalesce_old_through_fired
           (WidgetStates.mk [WidgetState.mk "b" (trigger_value true);
                             WidgetState.mk "t" (string_value "old")])
           (WidgetStates.mk [WidgetState.mk "x" (bool_value true);
                             WidgetState.mk "b" (trigger_value true)])
           (WidgetStates.mk [WidgetState.mk "b" (trigger_value false)])).
  intros i. simpl. split.
  - intros [H|[H|[]]]; [right; left; exact H | discriminate H].
  - intros [H|[H|[]]]; [discriminate H | left; exact H].
Defined.

Lemma reassert_fixes_coalesced old_states new_states w :
  In w (WidgetStates.widgets (coalesce_widget_states old_states new_states)) →
  reassert (WidgetStates.widgets old_states) w = w.
Proof.
  intros Hin.
  pose proof (entry_of_unique _ w (coalesce_identities_NoDup old_states new_states) Hin)
    as He.
  rewrite coalesce_entry_of in He.
  destruct (entry_of (WidgetStates.widgets new_states) (WidgetState.id w))
    as [w'|]; [|done].
  unfold reassert.
  destruct (in_trigger_slot w' && fired_in (WidgetStates.widgets old_states) (WidgetState.id w))
    eqn:Hc; injection He as <-.
  - simpl. apply andb_true_iff in Hc as [_ ->]. done.
  - by rewrite Hc.
Qed.

(** X4. Coalescing is idempotent in the old snapshot: coalescing the
    same old snapshot into an already coalesced result changes
    nothing. *)
Theorem coalesce_idempotent (old_states new_states : WidgetStates.t) :
  coalesce_widget_states old_states (coalesce_widget_states old_states new_states)
  = coalesce_widget_states old_states new_states.
Proof.
  apply WidgetStates_eq.
  rewrite coalesce_map_reassert by apply coalesce_identities_NoDup.
  rewrite <- (map_id (WidgetStates.widgets (coalesce_widget_states old_states new_states)))
    at 2.
  apply map_ext_in. intros w Hin. by apply (reassert_fixes_coalesced _ new_states).
Qed.

(** X5. A snapshot with unique identities coalesced with itself is
    itself. *)
Theorem coalesce_self (states : WidgetStates.t) :
  NoDup (identities (WidgetStates.widgets states)) →
  coalesce_widget_states states states = states.
Proof.
  intros Hnd. apply WidgetStates_eq. rewrite coalesce_map_reassert by done.
  rewrite <- (map_id (WidgetStates.widgets states)) at 3.
  apply map_ext_in. intros w Hin. unfold reassert.
  destruct (in_trigger_slot w && fired_in (WidgetStates.widgets states) (WidgetState.id w))
    eqn:Hc; [|done].
  apply andb_true_iff in Hc as [_ Hf]. apply fired_in_spec in Hf.
  pose proof (entry_of_unique _ _ Hnd Hf) as He. simpl in He.
  rewrite (entry_of_unique _ _ Hnd Hin) in He. by injection He as <-.
Qed.

Lemma coalesce_self_witness :
  let states := WidgetStates.mk [WidgetState.mk "b" (trigger_value true);
                                 WidgetState.mk "c" (trigger_value false);
                                 WidgetState.mk "t" (string_value "x")] in
  coalesce_widget_states states states = states.
Proof.
  apply (coalesce_self
           (WidgetStates.mk [WidgetState.mk "b" (trigger_value true);
                             WidgetState.mk "c" (trigger_value false);
                             WidgetState.mk "t" (string_value "x")])).
  simpl. apply (bool_decide_unpack _). vm_compute. exact I.
Defined.

(** X6. The one change coalescing ever makes: where the coalesced
    snapshot and the new one differ on an identity, the new snapshot
    held a trigger at rest there, the old snapshot held that trigger
    fired, and the coalesced snapshot holds it fired. Every other
    entry of the new snapshot, a fired trigger included, comes out as
    it went in. *)
Theorem coalesce_only_change (old_states new_states : WidgetStates.t) (i : string) :
  entry_of (WidgetStates.widgets (coalesce_widget_states old_states new_states)) i
  ≠ entry_of (WidgetStates.widgets new_states) i →
  entry_of (WidgetStates.widgets new_states) i = Some (WidgetState.mk i (trigger_value false))
  ∧ In (fired_trigger i) (WidgetStates.widgets old_states)
  ∧ entry_of (WidgetStates.widgets (coalesce_widget_states old_states new_states)) i
    = Some (fired_trigger i).
Proof.
  rewrite coalesce_entry_of.
  destruct (entry_of (WidgetStates.widgets new_states) i) as [w|] eqn:Hnew; [|done].
  apply entry_of_In in Hnew as [_ Hid].
  destruct (in_trigger_slot w) eqn:Hslot; simpl; [|done].
  destruct (fired_in (WidgetStates.widgets old_states) i) eqn:Hold; [|done].
  intros Hne. apply fired_in_spec in Hold.
  destruct w as [i' v]. simpl in Hid. subst i'.
  destruct v as [|[]| | | | | | | | | | |]; try discriminate Hslot; done.
Qed.

Lemma coalesce_only_change_witness :
  let old_states := WidgetStates.mk [WidgetState.mk "b" (trigger_value true)] in
  let new_states := WidgetStates.mk [WidgetState.mk "b" (trigger_value false)] in
  entry_of (WidgetStates.widgets new_states) "b"
  = Some (WidgetState.mk "b" (trigger_value false))
  ∧ In (fired_trigger "b") (WidgetStates.widgets old_states)
  ∧ entry_of (WidgetStates.widgets (coalesce_widget_states old_states new_states)) "b"
    = Some (fired_trigger "b").
Proof.
  apply (coalesce_only_change
           (WidgetStates.mk [WidgetState.mk "b" (trigger_value true)])
           (WidgetStates.mk [WidgetState.mk "b" (trigger_value false)]) "b").
  vm_compute. intros [=].
Defined.

(** ** Strings and digests *)

Lemma string_length_app (a b : string) :
  String.length (a ++ b) = (String.length a + String.length b)%nat.
Proof. induction a as [|c a IH]; [done|]. change (S (String.length (a ++ b)) = S (String.length a + String.length b)). by rewrite IH. Qed.

(** Two concatenations that agree, with first parts of one length,
    agree part by part. *)
Lemma string_app_split (a1 a2 b1 b2 : string) :
  String.length a1 = String.length a2 →
  (a1 ++ b1 = a2 ++ b2)%string → a1 = a2 ∧ b1 = b2.
Proof.
  revert a2. induction a1 as [|c a1 IH]; intros [|c2 a2]; try done.
  intros [= Hlen] [= <- Happ]. destruct (IH a2 Hlen Happ) as [-> ->]. done.
Qed.

Lemma md5_hex_length (bs : list Z) :
  String.length (MD5.hex bs) = (2 * length bs)%nat.
Proof. induction bs as [|b bs IH]; [done|]. simpl. rewrite IH. lia. Qed.

Lemma md5_le_bytes_length (n : nat) (x : Z) : length (MD5.le_bytes n x) = n.
Proof. unfold MD5.le_bytes. by rewrite length_map, length_seq. Qed.

(** A hex digest is 32 characters long. *)
Lemma md5_hexdigest_length (msg : list byte) :
  String.length (MD5.hexdigest msg) = 32%nat.
Proof.
  unfold MD5.hexdigest, MD5.digest.
  destruct (MD5.blocks _ _ _) as [[[A B] C] D].
  rewrite md5_hex_length, !length_app, !md5_le_bytes_length. done.
Qed.

(** ** The registrar, call by call and call after call *)

Section RegistrarMore.

Variables T UiValue WidgetCallback WidgetArgs WidgetKwargs SessionState : Type.
Variable GENERATED_WIDGET_KEY_PREFIX : string.
Variable SerializeToString : WidgetProto.t → list byte.
Variable SessionState_register_widget :
  SessionState → WidgetMetadata T UiValue WidgetCallback WidgetArgs WidgetKwargs →
  option string → RegisterWidgetResult.t T * SessionState.

Local Abbreviation _get_widget_id :=
  (_get_widget_id GENERATED_WIDGET_KEY_PREFIX SerializeToString).
Local Abbreviation register_in_context :=
  (register_in_context T UiValue WidgetCallback WidgetArgs WidgetKwargs SessionState
     SessionState_register_widget).
Local Abbreviation register_widget :=
  (register_widget T UiValue WidgetCallback WidgetArgs WidgetKwargs SessionState
     GENERATED_WIDGET_KEY_PREFIX SerializeToString SessionState_register_widget).

Implicit Types (element_type widget_id : string) (element_proto : WidgetProto.t).
Implicit Types (user_key widget_func_name : option string).
Implicit Types (ctx : ScriptRunContext SessionState).

Local Opaque ELEMENT_TYPE_TO_VALUE_TYPE _build_duplicate_widget_message MD5.hexdigest.

(** [register_widget] against a context, path by path. *)
Lemma register_widget_paths element_type element_proto deserializer serializer
    ctx user_key widget_func_name on_change_handler args kwargs :
  let widget_id := _get_widget_id element_type element_proto user_key in
  let ids := widget_ids_this_run ctx in
  let keys := widget_user_keys_this_run ctx in
  let message :=
    _build_duplicate_widget_message (reported_name widget_func_name element_type) user_key in
  let element_proto' := WidgetProto.set_id element_proto widget_id in
  register_widget element_type element_proto deserializer serializer (Some ctx)
    user_key widget_func_name on_change_handler args kwargs
  = if key_already_claimed user_key keys
    then (Raise (DuplicateWidgetID message), element_proto', Some ctx)
    else if bool_decide (widget_id ∈ ids)
    then (Raise (DuplicateWidgetID message), element_proto',
          Some (mkScriptRunContext ids (with_user_key user_key keys) (session_state ctx)))
    else match ELEMENT_TYPE_TO_VALUE_TYPE !! element_type with
         | None =>
             (Raise (KeyError element_type), element_proto',
              Some (mkScriptRunContext (ids ∪ {[widget_id]})
                      (with_user_key user_key keys) (session_state ctx)))
         | Some value_type =>
             let '(result, session_state') :=
               SessionState_register_widget (session_state ctx)
                 (mkWidgetMetadata widget_id deserializer serializer value_type
                    on_change_handler args kwargs) user_key in
             (Return result, element_proto',
              Some (mkScriptRunContext (ids ∪ {[widget_id]})
                      (with_user_key user_key keys) session_state'))
         end.
Proof.
  intros widget_id ids keys message element_proto'.
  unfold register_widget. rewrite register_in_context_paths.
  fold widget_id ids keys message element_proto'.
  destruct (key_already_claimed user_key keys); [done|].
  destruct (bool_decide (widget_id ∈ ids)); [done|].
  destruct (ELEMENT_TYPE_TO_VALUE_TYPE !! element_type); [|done].
  cbv zeta. by destruct (SessionState_register_widget _ _ _).
Qed.

Lemma key_not_claimed user_key (claimed : gset string) :
  (∀ key, user_key = Some key → key ∉ claimed) →
  key_already_claimed user_key claimed = false.
Proof.
  intros H. destruct user_key as [key|]; simpl; [|done].
  apply bool_decide_eq_false_2. by apply H.
Qed.

(** X8. The claim sets only grow, and by no more than the call's own
    identity and key: after any call against a context, each set holds
    what it held before, and nothing beyond that but the derived
    identity, respectively the supplied key. *)
Theorem register_claim_sets_grow element_type element_proto deserializer serializer
    ctx user_key widget_func_name on_change_handler args kwargs :
  let widget_id := _get_widget_id element_type element_proto user_key in
  let '(_, _, ctx') :=
    register_widget element_type element_proto deserializer serializer (Some ctx)
      user_key widget_func_name on_change_handler args kwargs in
  ∃ after, ctx' = Some after
    ∧ widget_ids_this_run ctx ⊆ widget_ids_this_run after
    ∧ widget_ids_this_run after ⊆ widget_ids_this_run ctx ∪ {[widget_id]}
    ∧ widget_user_keys_this_run ctx ⊆ widget_user_keys_this_run after
    ∧ widget_user_keys_this_run after
      ⊆ with_user_key user_key (widget_user_keys_this_run ctx).
Proof.
  intros widget_id. rewrite register_widget_paths. fold widget_id.
  assert (widget_user_keys_this_run ctx
          ⊆ with_user_key user_key (widget_user_keys_this_run ctx)) as Hkeys.
  { destruct user_key; simpl; set_solver. }
  destruct (key_already_claimed user_key _).
  { eexists. split; [done|]. set_solver. }
  destruct (bool_decide _).
  { eexists. split; [done|]. simpl. set_solver. }
  destruct (ELEMENT_TYPE_TO_VALUE_TYPE !! element_type).
  - destruct (SessionState_register_widget _ _ _).
    eexists. split; [done|]. simpl. set_solver.
  - eexists. split; [done|]. simpl. set_solver.
Qed.

(** X9. The session store is reached on the returning path only: a
    call that raises, for a duplicate or for an unknown element type,
    leaves the store of the context as it was; a call that returns has
    called the store once, on the store as it was, and returns its
    answer. *)
Theorem register_store_access element_type element_proto deserializer serializer
    ctx user_key widget_func_name on_change_handler args kwargs :
  let widget_id := _get_widget_id element_type element_proto user_key in
  let '(result, _, ctx') :=
    register_widget element_type element_proto deserializer serializer (Some ctx)
      user_key widget_func_name on_change_handler args kwargs in
  ∃ after, ctx' = Some after ∧
    match result with
    | Raise _ => session_state after = session_state ctx
    | Return answer =>
        ∃ value_type,
          ELEMENT_TYPE_TO_VALUE_TYPE !! element_type = Some value_type
          ∧ (answer, session_state after)
            = SessionState_register_widget (session_state ctx)
                (mkWidgetMetadata widget_id deserializer serializer value_type
                   on_change_handler args kwargs) user_key
    end.
Proof.
  intros widget_id. rewrite register_widget_paths. fold widget_id.
  destruct (key_already_claimed user_key _); [by eexists|].
  destruct (bool_decide _); [by eexists|].
  destruct (ELEMENT_TYPE_TO_VALUE_TYPE !! element_type) as [value_type|] eqn:Htable.
  - destruct (SessionState_register_widget _ _ _) as [answer st'] eqn:Hst.
    eexists. split; [done|]. exists value_type. by rewrite Hst.
  - by eexists.
Qed.

(** X10. Whenever [DuplicateWidgetID] is raised, over the key or over
    the identity, its message is the one
    [_build_duplicate_widget_message] builds for the widget's function
    name, or for its element type when no function name is given, and
    the user key of the call. *)
Theorem register_duplicate_message element_type element_proto deserializer serializer
    ctx user_key widget_func_name on_change_handler args kwargs :
  let '(result, _, _) :=
    register_widget element_type element_proto deserializer serializer (Some ctx)
      user_key widget_func_name on_change_handler args kwargs in
  match result with
  | Raise (DuplicateWidgetID message) =>
      message
      = _build_duplicate_widget_message
          (match widget_func_name with
           | Some name => name
           | None => element_type
           end) user_key
  | _ => True
  end.
Proof.
  rewrite register_widget_paths.
  destruct (key_already_claimed user_key _); [done|].
  destruct (bool_decide _); [done|].
  destruct (ELEMENT_TYPE_TO_VALUE_TYPE !! element_type); [|done].
  by destruct (SessionState_register_widget _ _ _).
Qed.

(** A call raises [DuplicateWidgetID] as soon as its key or its
    identity is claimed. *)
Lemma register_widget_raises element_type element_proto deserializer serializer
    ctx user_key widget_func_name on_change_handler args kwargs :
  key_already_claimed user_key (widget_user_keys_this_run ctx) = true
  ∨ _get_widget_id element_type element_proto user_key ∈ widget_ids_this_run ctx →
  raises_DuplicateWidgetID
    (register_widget element_type element_proto deserializer serializer (Some ctx)
       user_key widget_func_name on_change_handler args kwargs).1.1.
Proof.
  intros H. rewrite register_widget_paths.
  destruct (key_already_claimed user_key _) eqn:Hk; [by eexists|].
  destruct H as [?|Hi]; [done|].
  rewrite bool_decide_eq_true_2 by done. by eexists.
Qed.

Lemma register_widget_raises_inv element_type element_proto deserializer serializer
    ctx user_key widget_func_name on_change_handler args kwargs :
  raises_DuplicateWidgetID
    (register_widget element_type element_proto deserializer serializer (Some ctx)
       user_key widget_func_name on_change_handler args kwargs).1.1 →
  key_already_claimed user_key (widget_user_keys_this_run ctx) = true
  ∨ _get_widget_id element_type element_proto user_key ∈ widget_ids_this_run ctx.
Proof.
  rewrite register_widget_paths.
  destruct (key_already_claimed user_key _) eqn:Hk; [by left|].
  destruct (decide (_get_widget_id element_type element_proto user_key
                    ∈ widget_ids_this_run ctx)) as [Hi|Hi]; [by right|].
  rewrite bool_decide_eq_false_2 by done.
  destruct (ELEMENT_TYPE_TO_VALUE_TYPE !! element_type).
  - destruct (SessionState_register_widget _ _ _). by intros [? [=]].
  - by intros [? [=]].
Qed.

Lemma key_claimed_with user_key (claimed : gset string) :
  user_key ≠ None → key_already_claimed user_key (with_user_key user_key claimed) = true.
Proof.
  destruct user_key as [key|]; [|done]. intros _. simpl.
  apply bool_decide_eq_true_2. set_solver.
Qed.

(** X11. The same declaration twice in a run: after a call against a
    context, whatever its outcome, a second call in the context it
    left, with the same element type, a descriptor that serializes to
    the same bytes and the same user key, raises [DuplicateWidgetID],
    whatever its codecs, function name and callback. *)
Theorem register_again_raises element_type p1 p2 d1 s1 d2 s2 ctx user_key
    n1 n2 (h1 h2 : option WidgetCallback) (a1 a2 : option WidgetArgs)
    (k1 k2 : option WidgetKwargs) :
  SerializeToString p2 = SerializeToString p1 →
  let '(_, _, ctx1) :=
    register_widget element_type p1 d1 s1 (Some ctx) user_key n1 h1 a1 k1 in
  let '(second, _, _) :=
    register_widget element_type p2 d2 s2 ctx1 user_key n2 h2 a2 k2 in
  raises_DuplicateWidgetID second.
Proof.
  intros Hbytes.
  pose proof (get_widget_id_same_bytes GENERATED_WIDGET_KEY_PREFIX SerializeToString
                element_type p2 p1 user_key Hbytes) as Hid.
  assert (∀ c1 : ScriptRunContext SessionState,
    key_already_claimed user_key (widget_user_keys_this_run c1) = true
    ∨ _get_widget_id element_type p1 user_key ∈ widget_ids_this_run c1 →
    let '(second, _, _) :=
      register_widget element_type p2 d2 s2 (Some c1) user_key n2 h2 a2 k2 in
    raises_DuplicateWidgetID second) as Hsecond.
  { intros c1 Hc1. rewrite <- Hid in Hc1.
    pose proof (register_widget_raises element_type p2 d2 s2 c1 user_key n2 h2 a2 k2 Hc1)
      as Hr.
    by destruct (register_widget _ _ _ _ _ _ _ _ _ _) as [[second ?] ?]. }
  rewrite register_widget_paths.
  destruct (key_already_claimed user_key _) eqn:Hk.
  { apply Hsecond. by left. }
  destruct (decide (_get_widget_id element_type p1 user_key ∈ widget_ids_this_run ctx))
    as [Hi|Hi].
  { rewrite bool_decide_eq_true_2 by done. apply Hsecond. by right. }
  rewrite bool_decide_eq_false_2 by done.
  destruct (ELEMENT_TYPE_TO_VALUE_TYPE !! element_type).
  - destruct (SessionState_register_widget _ _ _).
    apply Hsecond. right. simpl. set_solver.
  - apply Hsecond. right. simpl. set_solver.
Qed.

(** X12. What one registration blocks: after a call that returned, a
    second call in the context it left raises [DuplicateWidgetID]
    exactly when it would have raised it in the context as it was
    before, or it supplies the key the first call supplied, or it
    derives the identity the first call derived. *)
Theorem register_blocks element_type1 p1 d1 s1 ctx key1 n1
    (h1 : option WidgetCallback) (a1 : option WidgetArgs) (k1 : option WidgetKwargs)
    element_type2 p2 d2 s2 key2 n2
    (h2 : option WidgetCallback) (a2 : option WidgetArgs) (k2 : option WidgetKwargs)
    (answer : RegisterWidgetResult.t T) :
  let first := register_widget element_type1 p1 d1 s1 (Some ctx) key1 n1 h1 a1 k1 in
  first.1.1 = Return answer →
  let second := register_widget element_type2 p2 d2 s2 first.2 key2 n2 h2 a2 k2 in
  raises_DuplicateWidgetID second.1.1 ↔
    (∃ key, key2 = Some key ∧ (key ∈ widget_user_keys_this_run ctx ∨ key1 = Some key))
    ∨ _get_widget_id element_type2 p2 key2 ∈ widget_ids_this_run ctx
    ∨ _get_widget_id element_type2 p2 key2 = _get_widget_id element_type1 p1 key1.
Proof.
  set (id1 := _get_widget_id element_type1 p1 key1).
  set (id2 := _get_widget_id element_type2 p2 key2).
  assert (∀ st' : SessionState,
    let c1 := mkScriptRunContext (widget_ids_this_run ctx ∪ {[id1]})
                (with_user_key key1 (widget_user_keys_this_run ctx)) st' in
    raises_DuplicateWidgetID
      (register_widget element_type2 p2 d2 s2 (Some c1) key2 n2 h2 a2 k2).1.1 ↔
     (∃ key, key2 = Some key ∧ (key ∈ widget_user_keys_this_run ctx ∨ key1 = Some key))
     ∨ id2 ∈ widget_ids_this_run ctx ∨ id2 = id1) as Hsecond.
  { intros st' c1.
    pose proof (register_widget_raises element_type2 p2 d2 s2 c1 key2 n2 h2 a2 k2) as Hr.
    pose proof (register_widget_raises_inv element_type2 p2 d2 s2 c1 key2 n2 h2 a2 k2)
      as Hi.
    destruct (register_widget _ _ _ _ _ _ _ _ _ _) as [[second ?] ?].
    simpl in Hr, Hi. fold id2 in Hr, Hi. simpl.
    assert (key_already_claimed key2 (with_user_key key1 (widget_user_keys_this_run ctx))
            = true
            ↔ ∃ key, key2 = Some key
                     ∧ (key ∈ widget_user_keys_this_run ctx ∨ key1 = Some key)) as Hkeys.
    { rewrite key_already_claimed_spec. split.
      - intros (key & -> & Hin). exists key. split; [done|].
        destruct key1 as [key'|]; simpl in Hin; [|by left].
        apply elem_of_union in Hin as [?|Hin]; [by left|].
        apply elem_of_singleton in Hin as ->. by right.
      - intros (key & -> & [Hin| ->]); exists key; (split; [done|]).
        + destruct key1; simpl; [apply elem_of_union; by left | done].
        + simpl. apply elem_of_union. right. by apply elem_of_singleton. }
    split.
    - intros [Hk|Hin]%Hi; [left; by apply Hkeys|].
      apply elem_of_union in Hin as [?|Hin]; [by right; left|].
      apply elem_of_singleton in Hin. by right; right.
    - intros [Hk|[Hin|Heq]]; apply Hr.
      + left. by apply Hkeys.
      + right. apply elem_of_union. by left.
      + right. rewrite Heq. apply elem_of_union. right. by apply elem_of_singleton. }
  intros first. unfold first. rewrite register_widget_paths. fold id1.
  destruct (key_already_claimed key1 _); [by intros [=]|].
  destruct (bool_decide _); [by intros [=]|].
  destruct (ELEMENT_TYPE_TO_VALUE_TYPE !! element_type1); [|by intros [=]].
  destruct (SessionState_register_widget _ _ _) as [answer' st'].
  intros _. cbn [fst snd]. apply Hsecond.
Qed.

(** *** Identities *)

(** Two identities are equal exactly when the two digests are and the
    two keys print alike. *)
Lemma get_widget_id_eq_iff element_type1 p1 key1 element_type2 p2 key2 :
  _get_widget_id element_type1 p1 key1 = _get_widget_id element_type2 p2 key2
  ↔ MD5.hexdigest (encode_utf8 element_type1 ++ SerializeToString p1)
    = MD5.hexdigest (encode_utf8 element_type2 ++ SerializeToString p2)
    ∧ str_of_optional key1 = str_of_optional key2.
Proof.
  rewrite !(get_widget_id_format GENERATED_WIDGET_KEY_PREFIX SerializeToString).
  split; [|by intros [-> ->]].
  intros H. do 2 apply append_inv_head in H.
  apply string_app_split in H as [Hd H]; [|by rewrite !md5_hexdigest_length].
  apply append_inv_head in H. done.
Qed.

(** X13. Widgets given different explicit keys never share an
    identity, whatever their element types and descriptors. *)
Theorem get_widget_id_explicit_keys element_type1 p1 element_type2 p2
    (key1 key2 : string) :
  key1 ≠ key2 →
  _get_widget_id element_type1 p1 (Some key1) ≠ _get_widget_id element_type2 p2 (Some key2).
Proof. intros Hne [_ Hk]%get_widget_id_eq_iff. done. Qed.

End RegistrarMore.

(** *** The two messages *)

Lemma list_ascii_of_string_app (a b : string) :
  list_ascii_of_string (a ++ b) = list_ascii_of_string a ++ list_ascii_of_string b.
Proof. induction a as [|c a IH]; [done|]. simpl. by rewrite <- IH. Qed.

(** X15. The two phrasings never coincide: whatever the widget names
    and the key, the message about a duplicate explicit key and the
    message about a duplicate generated key are two different texts. *)
Theorem duplicate_messages_differ (name1 name2 key : string) :
  _build_duplicate_widget_message name1 (Some key)
  ≠ _build_duplicate_widget_message name2 None.
Proof.
  intros H. apply (f_equal (fun s => rev (list_ascii_of_string s))) in H.
  unfold _build_duplicate_widget_message in H.
  rewrite !list_ascii_of_string_app, !rev_app_distr in H.
  simpl in H. discriminate H.
Qed.

(** *** Witnesses in the concrete world *)

Lemma register_again_raises_witness :
  let '(_, _, ctx1) :=
    Sample.register "toggle" Sample.ok_button (Some Sample.fresh_run) None in
  let '(second, _, _) := Sample.register "toggle" Sample.ok_button ctx1 None in
  raises_DuplicateWidgetID second.
Proof.
  apply (register_again_raises bool bool unit unit unit Sample.Store
           Sample.PREFIX Sample.SerializeToString Sample.store_register
           "toggle" Sample.ok_button Sample.ok_button
           Sample.button_deserializer Sample.button_serializer
           Sample.button_deserializer Sample.button_serializer
           Sample.fresh_run None None None None None None None None None).
  reflexivity.
Defined.

Lemma register_blocks_witness :
  let first :=
    Sample.register "button" Sample.ok_button (Some Sample.fresh_run) (Some "a"%string) in
  let second := Sample.register "button" Sample.ok_button first.2 (Some "b"%string) in
  raises_DuplicateWidgetID second.1.1 ↔
    (∃ key, Some "b"%string = Some key
            ∧ (key ∈ widget_user_keys_this_run Sample.fresh_run ∨ Some "a"%string = Some key))
    ∨ Sample.get_widget_id "button" Sample.ok_button (Some "b"%string)
      ∈ widget_ids_this_run Sample.fresh_run
    ∨ Sample.get_widget_id "button" Sample.ok_button (Some "b"%string)
      = Sample.get_widget_id "button" Sample.ok_button (Some "a"%string).
Proof.
  apply (register_blocks bool bool unit unit unit Sample.Store
           Sample.PREFIX Sample.SerializeToString Sample.store_register
           "button" Sample.ok_button Sample.button_deserializer Sample.button_serializer
           Sample.fresh_run (Some "a"%string) None None None None
           "button" Sample.ok_button Sample.button_deserializer Sample.button_serializer
           (Some "b"%string) None None None None
           (RegisterWidgetResult.mk false false)).
  vm_compute. reflexivity.
Defined.

Lemma get_widget_id_explicit_keys_witness :
  Sample.get_widget_id "button" Sample.ok_button (Some "a"%string)
  ≠ Sample.get_widget_id "checkbox" (WidgetProto.mk "" [x12; x01; x41]) (Some "b"%string).
Proof.
  apply (get_widget_id_explicit_keys Sample.PREFIX Sample.SerializeToString
           "button" Sample.ok_button "checkbox" (WidgetProto.mk "" [x12; x01; x41])
           "a" "b").
  intros [=].
Defined.


(** * The call, whatever the user key *)

Example utf8_encoding_example :
  list_byte_of_string <$> utf8_encoding [97; 233; 8364; 128512]%N
  = Some [x61; xc3; xa9; xe2; x82; xac; xf0; x9f; x98; x80].
Proof. vm_compute. reflexivity. Qed.

Example utf8_encoding_bounds :
  list_byte_of_string <$> utf8_encoding [127; 128; 2047; 2048; 55295; 57344; 65535; 65536; 1114111]%N
  = Some [x7f; xc2; x80; xdf; xbf; xe0; xa0; x80; xed; x9f; xbf; xee; x80; x80;
          xef; xbf; xbf; xf0; x90; x80; x80; xf4; x8f; xbf; xbf].
Proof. vm_compute. reflexivity. Qed.

Example utf8_encoding_surrogate :
  utf8_encoding [103; 55296; 111]%N = None
  ∧ utf8_encoding [56320]%N = None
  ∧ utf8_encoding [57343]%N = None.
Proof. vm_compute. repeat split. Qed.

Section RegistrarCalls.

Variables T UiValue WidgetCallback WidgetArgs WidgetKwargs SessionState : Type.
Variable GENERATED_WIDGET_KEY_PREFIX : string.
Variable SerializeToString : WidgetProto.t → list byte.
Variable SessionState_register_widget :
  SessionState → WidgetMetadata T UiValue WidgetCallback WidgetArgs WidgetKwargs →
  option string → RegisterWidgetResult.t T * SessionState.

Local Abbreviation _get_widget_id :=
  (_get_widget_id GENERATED_WIDGET_KEY_PREFIX SerializeToString).
Local Abbreviation encoded_call :=
  (register_widget T UiValue WidgetCallback WidgetArgs WidgetKwargs SessionState
     GENERATED_WIDGET_KEY_PREFIX SerializeToString SessionState_register_widget).

Implicit Types (element_type widget_id : string) (element_proto : WidgetProto.t).
Implicit Types (user_key : option str) (encoded_key widget_func_name : option string).
Implicit Types (ctx : ScriptRunContext SessionState).

Local Opaque ELEMENT_TYPE_TO_VALUE_TYPE _build_duplicate_widget_message MD5.hexdigest.

(** With a key that has an encoding, the call is the call on the
    encoded key. *)
Lemma register_widget_encoded element_type element_proto deserializer serializer
    (ctx : option (ScriptRunContext SessionState)) user_key encoded_key
    widget_func_name on_change_handler args kwargs :
  key_encoding user_key = Some encoded_key →
  widgets.register_widget GENERATED_WIDGET_KEY_PREFIX SerializeToString
    SessionState_register_widget element_type element_proto deserializer serializer
    ctx user_key widget_func_name on_change_handler args kwargs
  = encoded_call element_type element_proto deserializer serializer
      ctx encoded_key widget_func_name on_change_handler args kwargs.
Proof. intros H. unfold widgets.register_widget. by rewrite H. Qed.

(** C4, amended. With no run context and a user key that is absent or
    has a UTF-8 encoding, the call raises nothing and returns the
    failure result, which carries the deserializer's default; there is
    no context afterwards either, so no claim set is touched; its one
    mutation is the derived identity assigned to the descriptor. *)
Theorem register_no_context element_type element_proto deserializer serializer
    user_key encoded_key widget_func_name on_change_handler args kwargs :
  key_encoding user_key = Some encoded_key →
  let '(result, element_proto', ctx') :=
    widgets.register_widget GENERATED_WIDGET_KEY_PREFIX SerializeToString
      SessionState_register_widget element_type element_proto deserializer serializer
      None user_key widget_func_name on_change_handler args kwargs in
  result = Return (RegisterWidgetResult.failure deserializer)
  ∧ RegisterWidgetResult.value (RegisterWidgetResult.failure deserializer)
    = deserializer None ""%string
  ∧ ctx' = None
  ∧ element_proto'
    = WidgetProto.set_id element_proto
        (_get_widget_id element_type element_proto encoded_key).
Proof.
  intros Hkey. rewrite (register_widget_encoded _ _ _ _ _ _ _ _ _ _ _ Hkey).
  unfold register_widget. repeat split.
Qed.

(** C9, amended. The descriptor's identity on every path but one: when
    the user key is absent or has a UTF-8 encoding, then whatever the
    context, absent or present, and whatever the outcome, returned or
    raised, the descriptor comes back with its [id] set to the derived
    identity; when the key has no UTF-8 encoding, the assignment
    raises [ValueError] and the descriptor and the context come back
    as they were. *)
Theorem register_assigns_id element_type element_proto deserializer serializer
    (ctx : option (ScriptRunContext SessionState))
    user_key widget_func_name on_change_handler args kwargs :
  let '(result, element_proto', ctx') :=
    widgets.register_widget GENERATED_WIDGET_KEY_PREFIX SerializeToString
      SessionState_register_widget element_type element_proto deserializer serializer
      ctx user_key widget_func_name on_change_handler args kwargs in
  match key_encoding user_key with
  | Some encoded_key =>
      element_proto'
      = WidgetProto.set_id element_proto
          (_get_widget_id element_type element_proto encoded_key)
      ∧ WidgetProto.id element_proto'
        = _get_widget_id element_type element_proto encoded_key
  | None => result = Raise ValueError ∧ element_proto' = element_proto ∧ ctx' = ctx
  end.
Proof.
  unfold widgets.register_widget.
  destruct (key_encoding user_key) as [encoded_key|]; [|done].
  unfold register_widget. destruct ctx as [ctx|]; [|done].
  by destruct (register_in_context _ _ _ _ _ _ _ _ _ _ _ _ _ _ _ _ _).
Qed.


(** X7. The path that returns: with a run context present, a user key
    that is absent or has a UTF-8 encoding, the key (if any) and the
    derived identity both new to the run, and the element type in the
    static table, the session store is handed the metadata made of the
    derived identity, the two codecs, the table's value type and the
    callback with its arguments, together with the user key; what the
    store answers is returned as it is, and the context is left with
    the identity and the key claimed and the store as the store left
    it. *)
Theorem register_widget_returns element_type element_proto deserializer serializer
    ctx user_key encoded_key widget_func_name on_change_handler args kwargs value_type :
  key_encoding user_key = Some encoded_key →
  (∀ key, encoded_key = Some key → key ∉ widget_user_keys_this_run ctx) →
  _get_widget_id element_type element_proto encoded_key ∉ widget_ids_this_run ctx →
  ELEMENT_TYPE_TO_VALUE_TYPE !! element_type = Some value_type →
  let widget_id := _get_widget_id element_type element_proto encoded_key in
  let metadata :=
    mkWidgetMetadata widget_id deserializer serializer value_type
      on_change_handler args kwargs in
  let answer := SessionState_register_widget (session_state ctx) metadata encoded_key in
  widgets.register_widget GENERATED_WIDGET_KEY_PREFIX SerializeToString
    SessionState_register_widget element_type element_proto deserializer serializer
    (Some ctx) user_key widget_func_name on_change_handler args kwargs
  = (Return answer.1,
     WidgetProto.set_id element_proto widget_id,
     Some (mkScriptRunContext
             (widget_ids_this_run ctx ∪ {[widget_id]})
             (with_user_key encoded_key (widget_user_keys_this_run ctx))
             answer.2)).
Proof.
  intros Henc Hkey Hid Htable widget_id metadata answer.
  rewrite (register_widget_encoded _ _ _ _ _ _ _ _ _ _ _ Henc).
  rewrite register_widget_paths. fold widget_id.
  rewrite key_not_claimed by done. rewrite bool_decide_eq_false_2 by done.
  rewrite Htable. fold metadata. fold answer. by destruct answer.
Qed.

Lemma claims_consistent_keys (prefix : string) (ids keys keys' : gset string) :
  keys ⊆ keys' → claims_consistent prefix ids keys → claims_consistent prefix ids keys'.
Proof.
  intros Hsub H i Hi. destruct (H i Hi) as (digest & key0 & Hlen & Heq & Hkey).
  exists digest, key0. split; [done|]. split; [done|]. intros key Hk. by apply Hsub, Hkey.
Qed.

Lemma with_user_key_subseteq encoded_key (keys : gset string) :
  keys ⊆ with_user_key encoded_key keys.
Proof. destruct encoded_key; simpl; [apply union_subseteq_l | done]. Qed.

Lemma claims_consistent_claim element_type element_proto encoded_key
    (ids keys : gset string) :
  claims_consistent GENERATED_WIDGET_KEY_PREFIX ids keys →
  claims_consistent GENERATED_WIDGET_KEY_PREFIX
    (ids ∪ {[_get_widget_id element_type element_proto encoded_key]})
    (with_user_key encoded_key keys).
Proof.
  intros H i [Hi| ->%elem_of_singleton]%elem_of_union.
  - exact (claims_consistent_keys _ _ _ _ (with_user_key_subseteq _ _) H i Hi).
  - exists (MD5.hexdigest (encode_utf8 element_type ++ SerializeToString element_proto)),
      encoded_key.
    split; [apply md5_hexdigest_length|]. split; [done|].
    intros key ->. simpl. apply elem_of_union. right. by apply elem_of_singleton.
Qed.

(** X16. The claim sets stay those of a run: if every claimed identity
    is the prefix, a digest of 32 characters and a key that is absent
    or claimed, then so it is after any call against the context,
    whatever the user key and whatever the outcome. *)
Theorem register_keeps_claims_consistent element_type element_proto deserializer
    serializer ctx user_key widget_func_name on_change_handler args kwargs :
  claims_consistent GENERATED_WIDGET_KEY_PREFIX
    (widget_ids_this_run ctx) (widget_user_keys_this_run ctx) →
  let '(_, _, ctx') :=
    widgets.register_widget GENERATED_WIDGET_KEY_PREFIX SerializeToString
      SessionState_register_widget element_type element_proto deserializer serializer
      (Some ctx) user_key widget_func_name on_change_handler args kwargs in
  ∃ after, ctx' = Some after
    ∧ claims_consistent GENERATED_WIDGET_KEY_PREFIX
        (widget_ids_this_run after) (widget_user_keys_this_run after).
Proof.
  intros H. unfold widgets.register_widget.
  destruct (key_encoding user_key) as [encoded_key|]; [|by exists ctx].
  rewrite register_widget_paths.
  destruct (key_already_claimed encoded_key _); [by exists ctx|].
  destruct (bool_decide _).
  { eexists. split; [done|]. simpl.
    exact (claims_consistent_keys _ _ _ _ (with_user_key_subseteq _ _) H). }
  destruct (ELEMENT_TYPE_TO_VALUE_TYPE !! element_type).
  - destruct (SessionState_register_widget _ _ _).
    eexists. split; [done|]. simpl. by apply claims_consistent_claim.
  - eexists. split; [done|]. simpl. by apply claims_consistent_claim.
Qed.

(** X17. Failure leaves the run as it was, but for one key: in a run
    whose claim sets are consistent, a call whose user key is not the
    text [None] and that raises [DuplicateWidgetID] leaves the context
    exactly as it was, claim sets and session store. *)
Theorem register_duplicate_leaves_context element_type element_proto deserializer
    serializer ctx user_key widget_func_name on_change_handler args kwargs :
  claims_consistent GENERATED_WIDGET_KEY_PREFIX
    (widget_ids_this_run ctx) (widget_user_keys_this_run ctx) →
  key_encoding user_key ≠ Some (Some "None"%string) →
  let '(result, _, ctx') :=
    widgets.register_widget GENERATED_WIDGET_KEY_PREFIX SerializeToString
      SessionState_register_widget element_type element_proto deserializer serializer
      (Some ctx) user_key widget_func_name on_change_handler args kwargs in
  raises_DuplicateWidgetID result → ctx' = Some ctx.
Proof.
  intros H Hnone. unfold widgets.register_widget.
  destruct (key_encoding user_key) as [encoded_key|]; [|by intros [? [=]]].
  rewrite register_widget_paths.
  destruct (key_already_claimed encoded_key _) eqn:Hclaimed; [done|].
  destruct (decide (_get_widget_id element_type element_proto encoded_key
                    ∈ widget_ids_this_run ctx)) as [Hin|Hin].
  - rewrite bool_decide_eq_true_2 by done. intros _.
    destruct encoded_key as [key|]; [exfalso | by destruct ctx].
    destruct (H _ Hin) as (digest & key0 & Hlen & Heq & Hkey).
    rewrite (get_widget_id_format GENERATED_WIDGET_KEY_PREFIX SerializeToString) in Heq.
    do 2 apply append_inv_head in Heq.
    apply string_app_split in Heq as [_ Heq]; [|by rewrite md5_hexdigest_length].
    apply append_inv_head in Heq. simpl in Heq.
    destruct key0 as [key0|]; simpl in Heq; subst key.
    + simpl in Hclaimed. apply bool_decide_eq_false in Hclaimed.
      apply Hclaimed. by apply Hkey.
    + by apply Hnone.
  - rewrite bool_decide_eq_false_2 by done.
    destruct (ELEMENT_TYPE_TO_VALUE_TYPE !! element_type).
    + destruct (SessionState_register_widget _ _ _). by intros [? [=]].
    + by intros [? [=]].
Qed.

End RegistrarCalls.

(** *** In the concrete world *)

Example go_run_reached :
  (Sample.call "button" Sample.ok_button (Some Sample.fresh_run) (Some Sample.go)).2
  = Some Sample.go_run.
Proof. vm_compute. reflexivity. Qed.

Lemma go_run_consistent :
  claims_consistent Sample.PREFIX
    (widget_ids_this_run Sample.go_run) (widget_user_keys_this_run Sample.go_run).
Proof.
  intros i Hi.
  change (i ∈ ({[Sample.get_widget_id "button" Sample.ok_button (Some "go"%string)]}
               : gset string)) in Hi.
  apply elem_of_singleton in Hi as ->.
  exists (MD5.hexdigest (encode_utf8 "button" ++ Sample.SerializeToString Sample.ok_button)),
    (Some "go"%string).
  split; [apply md5_hexdigest_length|]. split; [reflexivity|].
  intros key [= <-].
  change ("go"%string ∈ ({["go"%string]} : gset string)). by apply elem_of_singleton.
Qed.

(** C4, as worded, fails twice: registered with no context and no key,
    the descriptor is not what it was, its [id] now holding the derived
    identity; registered with no context and a key that is a lone
    surrogate, the call raises. *)
Lemma register_no_context_mutates_descriptor :
  (let '(_, element_proto', _) :=
     Sample.call "button" Sample.ok_button None None in
   element_proto' ≠ Sample.ok_button)
  ∧ (let '(result, _, _) :=
       Sample.call "button" Sample.ok_button None (Some Sample.lone_surrogate) in
     result = Raise ValueError).
Proof. vm_compute. split; [intros [=] | reflexivity]. Qed.

Lemma register_no_context_witness :
  let '(result, element_proto', ctx') :=
    Sample.call "button" Sample.ok_button None (Some Sample.go) in
  result = Return (RegisterWidgetResult.failure Sample.button_deserializer)
  ∧ RegisterWidgetResult.value (RegisterWidgetResult.failure Sample.button_deserializer)
    = Sample.button_deserializer None ""%string
  ∧ ctx' = None
  ∧ element_proto'
    = WidgetProto.set_id Sample.ok_button
        (Sample.get_widget_id "button" Sample.ok_button (Some "go"%string)).
Proof.
  apply (register_no_context bool bool unit unit unit Sample.Store
           Sample.PREFIX Sample.SerializeToString Sample.store_register
           "button" Sample.ok_button Sample.button_deserializer Sample.button_serializer
           (Some Sample.go) (Some "go"%string) None None None None).
  vm_compute. reflexivity.
Defined.

(** C9, as worded, fails: registered under a key that is a lone
    surrogate, the call raises at the assignment and the descriptor
    comes back with the empty [id] it had. *)
Lemma register_surrogate_key_keeps_descriptor :
  let '(result, element_proto', _) :=
    Sample.call "button" Sample.ok_button (Some Sample.fresh_run)
      (Some Sample.lone_surrogate) in
  result = Raise ValueError
  ∧ element_proto' = Sample.ok_button
  ∧ WidgetProto.id element_proto' = ""%string.
Proof. vm_compute. repeat split. Qed.



Lemma register_widget_returns_witness :
  let widget_id := Sample.get_widget_id "button" Sample.ok_button (Some "go"%string) in
  Sample.call "button" Sample.ok_button (Some Sample.fresh_run) (Some Sample.go)
  = (Return (RegisterWidgetResult.mk false false),
     WidgetProto.set_id Sample.ok_button widget_id,
     Some (mkScriptRunContext (∅ ∪ {[widget_id]}) (∅ ∪ {["go"%string]})
             [(widget_id, "trigger_value"%string)])).
Proof.
  apply (register_widget_returns bool bool unit unit unit Sample.Store
           Sample.PREFIX Sample.SerializeToString Sample.store_register
           "button" Sample.ok_button Sample.button_deserializer Sample.button_serializer
           Sample.fresh_run (Some Sample.go) (Some "go"%string) None None None None
           "trigger_value").
  - vm_compute. reflexivity.
  - intros key _. apply not_elem_of_empty.
  - apply not_elem_of_empty.
  - vm_compute. reflexivity.
Defined.

Lemma register_keeps_claims_consistent_witness :
  let '(_, _, ctx') :=
    Sample.call "checkbox" (WidgetProto.mk "" [x12; x01; x41]) (Some Sample.go_run)
      (Some [97]%N) in
  ∃ after, ctx' = Some after
    ∧ claims_consistent Sample.PREFIX
        (widget_ids_this_run after) (widget_user_keys_this_run after).
Proof.
  apply (register_keeps_claims_consistent bool bool unit unit unit Sample.Store
           Sample.PREFIX Sample.SerializeToString Sample.store_register
           "checkbox" (WidgetProto.mk "" [x12; x01; x41])
           Sample.button_deserializer Sample.button_serializer
           Sample.go_run (Some [97]%N) None None None None).
  apply go_run_consistent.
Defined.

Lemma register_duplicate_leaves_context_witness :
  let '(result, _, ctx') :=
    Sample.call "checkbox" (WidgetProto.mk "" [x12; x01; x41]) (Some Sample.go_run)
      (Some Sample.go) in
  raises_DuplicateWidgetID result ∧ ctx' = Some Sample.go_run.
Proof.
  pose proof (register_duplicate_leaves_context bool bool unit unit unit Sample.Store
                Sample.PREFIX Sample.SerializeToString Sample.store_register
                "checkbox" (WidgetProto.mk "" [x12; x01; x41])
                Sample.button_deserializer Sample.button_serializer
                Sample.go_run (Some Sample.go) None None None None
                go_run_consistent) as H.
  unfold Sample.call.
  destruct (widgets.register_widget _ _ _ _ _ _ _ _ _ _ _ _ _)
    as [[result element_proto'] ctx'] eqn:Hcall.
  assert (raises_DuplicateWidgetID result) as Hraise.
  { vm_compute in Hcall. injection Hcall as <- _ _. eexists. reflexivity. }
  split; [done|]. apply H; [|done]. vm_compute. intros [=].
Defined.
